(** * Radar-chart projection and static plotting script

    A shallow embedding of [mastersCopenhagen2022MVP.py]: the factory that
    computes the axis angles and registers the [RadarAxes] projection, the
    methods of [RadarTransform] and [RadarAxes], the literal data table and
    the top-level script.

    Conventions.
    - numpy's float64 arrays are lists of real numbers: floating-point
      arithmetic is idealised as exact arithmetic on [R]; the data arrays
      of a line, which the caller supplies, may also hold NaN ([float]);
    - Python numeric literals of the data table are rationals ([Q]), which
      represent the decimal literals exactly;
    - exceptions are the [Raise] case of [result]; code that mutates an object
      is a computation in the state monad [M] over the object's state;
    - a Python closure is a [Section] whose [Variable]s are the captured
      names. *)

From Stdlib Require Import List String ZArith QArith Reals Lra Lia Bool.
From Stdlib Require Import DecimalString.
Import ListNotations.

Local Open Scope nat_scope.
Local Open Scope string_scope.
Local Open Scope list_scope.

(** ** Exceptions and the state-and-exception monad *)

Inductive exn : Type :=
| ValueError (msg : string)
| IndexError (msg : string)
| KeyError (msg : string)
| NameError (msg : string)
| ZeroDivisionError (msg : string).

Inductive result (A : Type) : Type :=
| OK (a : A)
| Raise (e : exn).

Arguments OK {A} a.
Arguments Raise {A} e.

Definition M (S A : Type) : Type := S -> result (A * S).

Definition ret {S A : Type} (a : A) : M S A := fun s => OK (a, s).

Definition bind {S A B : Type} (m : M S A) (k : A -> M S B) : M S B :=
  fun s => match m s with
           | OK (a, s') => k a s'
           | Raise e => Raise e
           end.

Definition raise {S A : Type} (e : exn) : M S A := fun _ => Raise e.

Definition lift {S A : Type} (r : result A) : M S A :=
  fun s => match r with
           | OK a => OK (a, s)
           | Raise e => Raise e
           end.

Definition get {S : Type} : M S S := fun s => OK (s, s).

Definition modify {S : Type} (f : S -> S) : M S unit := fun s => OK (tt, f s).

Notation "x <- m ;; k" := (bind m (fun x => k))
  (at level 61, m at next level, right associativity).
Notation "m ;;; k" := (bind m (fun _ => k))
  (at level 61, right associativity).

(** [for x in xs: body x] *)
Fixpoint for_each {S A : Type} (xs : list A) (body : A -> M S unit) : M S unit :=
  match xs with
  | [] => ret tt
  | x :: xs' => body x ;;; for_each xs' body
  end.

(** ** The part of numpy the script uses *)

Module np.

Definition pi : R := PI.

(** [np.arange(0, num)] as floats. *)
Definition arange (num : Z) : list R := map INR (seq 0 (Z.to_nat num)).

(** [np.linspace(start, stop, num, endpoint=False)]: [num] samples
    [start + i * step] with [step = (stop - start) / num]; a negative
    [num] is refused. *)
Definition linspace (start stop : R) (num : Z) : result (list R) :=
  if (num <? 0)%Z then
    Raise (ValueError ("Number of samples, "
                         ++ NilZero.string_of_int (Z.to_int num)
                         ++ ", must be non-negative.")%string)
  else
    let div := num in
    let delta := (stop - start)%R in
    let y := arange num in
    if (0 <? div)%Z then
      let step := (delta / IZR div)%R in
      OK (map (fun yi => (yi * step + start)%R) y)
    else
      OK (map (fun yi => (yi * delta + start)%R) y).

(** [np.degrees(x)], elementwise. *)
Definition degrees (x : list R) : list R :=
  map (fun a => (a * (180 / PI))%R) x.

(** [np.append(arr, v)] returns a new array. *)
Definition append {A : Type} (arr : list A) (v : A) : list A := arr ++ [v].

(** [arr[i]], with Python's negative indices. *)
Definition index {A : Type} (arr : list A) (i : Z) : result A :=
  let n := Z.of_nat (List.length arr) in
  let j := if (i <? 0)%Z then (i + n)%Z else i in
  if ((j <? 0) || (n <=? j))%Z then
    Raise (IndexError "index out of bounds")
  else
    match nth_error arr (Z.to_nat j) with
    | Some v => OK v
    | None => Raise (IndexError "index out of bounds")
    end.

End np.

(** ** Objects of the plotting library *)

(** Frame patches: [Circle(xy, radius)] and
    [RegularPolygon(xy, numVertices, radius=..., edgecolor=...)]. *)
Inductive Patch : Type :=
| Circle (xy : Q * Q) (radius : Q)
| RegularPolygon (xy : Q * Q) (numVertices : Z) (radius : Q) (edgecolor : string).

(** Spines: the parent's arc spine, or a [Spine] built on
    [Path.unit_regular_polygon(n)] with the transform
    [Affine2D().scale(s).translate(tx, ty) + transAxes]. *)
Inductive Spine : Type :=
| ArcSpine
| PolygonSpine (spine_type : string) (sides : Z) (scale : Q) (translate : Q * Q).

(** [Path(vertices, codes)]; [_interpolation_steps] defaults to 1. *)
Record Path : Type := mkPath {
  vertices : list (R * R);
  codes : option (list Z);
  _interpolation_steps : Z
}.

Definition Path_new (v : list (R * R)) (c : option (list Z)) : Path :=
  mkPath v c 1.

(** A value of a data array: a real number or NaN (an infinity compares
    like a number and is not told apart). *)
Inductive float : Type :=
| Finite (r : R)
| NaN.

(** [a != b] on floats: NaN differs from every value, itself included. *)
Definition float_ne (a b : float) : bool :=
  match a, b with
  | Finite x, Finite y => if Req_dec_T x y then false else true
  | _, _ => true
  end.

(** [np.asarray] on a list of numbers. *)
Definition floats (l : list R) : list float := map Finite l.

(** [Path.unit_regular_polygon(numVertices)] computes
    [2 * np.pi / numVertices]; the path is kept by its number of sides. *)
Definition Path_unit_regular_polygon (numVertices : Z) : result Z :=
  if (numVertices =? 0)%Z then
    Raise (ZeroDivisionError "float division by zero")
  else
    OK numVertices.

(** The constructor [RegularPolygon(xy, numVertices, radius=...,
    edgecolor=...)] builds its path with [Path.unit_regular_polygon]. *)
Definition RegularPolygon_new (xy : Q * Q) (numVertices : Z) (radius : Q)
           (edgecolor : string) : result Patch :=
  match Path_unit_regular_polygon numVertices with
  | OK n => OK (RegularPolygon xy n radius edgecolor)
  | Raise e => Raise e
  end.

Record Line2D : Type := mkLine2D {
  xdata : list float;
  ydata : list float;
  color : string
}.

Record Polygon : Type := mkPolygon {
  poly_x : list float;
  poly_y : list float;
  closed : bool;
  facecolor : string;
  alpha : Q;
  label : string
}.

(** A line object is referred to by its position in the axes' list of lines. *)
Definition lineref : Type := nat.

(** The state of one axes object. *)
Record Axes : Type := mkAxes {
  theta_zero_location : string;
  spines : list (string * Spine);
  patch : option Patch;
  lines : list Line2D;
  patches : list Polygon;
  rgrids : list Q;
  title : string;
  thetagrids : list (R * string);
  legend_labels : option (list string)
}.

Definition set_theta_zero_location_field (loc : string) (ax : Axes) : Axes :=
  mkAxes loc (spines ax) (patch ax) (lines ax) (patches ax) (rgrids ax)
         (title ax) (thetagrids ax) (legend_labels ax).

Definition set_spines_field (sp : list (string * Spine)) (ax : Axes) : Axes :=
  mkAxes (theta_zero_location ax) sp (patch ax) (lines ax) (patches ax)
         (rgrids ax) (title ax) (thetagrids ax) (legend_labels ax).

Definition set_patch_field (p : Patch) (ax : Axes) : Axes :=
  mkAxes (theta_zero_location ax) (spines ax) (Some p) (lines ax) (patches ax)
         (rgrids ax) (title ax) (thetagrids ax) (legend_labels ax).

Definition set_lines_field (ls : list Line2D) (ax : Axes) : Axes :=
  mkAxes (theta_zero_location ax) (spines ax) (patch ax) ls (patches ax)
         (rgrids ax) (title ax) (thetagrids ax) (legend_labels ax).

Definition set_patches_field (ps : list Polygon) (ax : Axes) : Axes :=
  mkAxes (theta_zero_location ax) (spines ax) (patch ax) (lines ax) ps
         (rgrids ax) (title ax) (thetagrids ax) (legend_labels ax).

Definition set_rgrids_field (rs : list Q) (ax : Axes) : Axes :=
  mkAxes (theta_zero_location ax) (spines ax) (patch ax) (lines ax)
         (patches ax) rs (title ax) (thetagrids ax) (legend_labels ax).

Definition set_title_field (t : string) (ax : Axes) : Axes :=
  mkAxes (theta_zero_location ax) (spines ax) (patch ax) (lines ax)
         (patches ax) (rgrids ax) t (thetagrids ax) (legend_labels ax).

Definition set_thetagrids_field (tg : list (R * string)) (ax : Axes) : Axes :=
  mkAxes (theta_zero_location ax) (spines ax) (patch ax) (lines ax)
         (patches ax) (rgrids ax) (title ax) tg (legend_labels ax).

Definition set_legend_field (ls : list string) (ax : Axes) : Axes :=
  mkAxes (theta_zero_location ax) (spines ax) (patch ax) (lines ax)
         (patches ax) (rgrids ax) (title ax) (thetagrids ax) (Some ls).

(** A freshly allocated axes object, before [__init__] has run. *)
Definition blank_axes : Axes :=
  mkAxes "E" [] None [] [] [] "" [] None.

(** Replace the element at position [i]; out of range leaves the list as it is. *)
Fixpoint list_update {A : Type} (l : list A) (i : nat) (v : A) : list A :=
  match l, i with
  | [], _ => []
  | _ :: t, O => v :: t
  | h :: t, S i' => h :: list_update t i' v
  end.

(** What a method of this script returns to its caller: [None], or the list
    of line objects the parent's [plot] returns. *)
Inductive pyret : Type :=
| PyNone
| PyLines (ls : list lineref).

(** ** The parent class [PolarAxes]: the library calls the script relies on

    These are calls into the plotting library, whose code is not part of the
    script; each is modelled by the effect the script relies on. *)

Module PolarAxes.

(** [Axes.plot(x, y, color=c)]: builds one line from copies of [x] and [y],
    adds it to the axes and returns the list of the lines it created; [x]
    and [y] of different lengths are refused. *)
Definition plot (args : list float * list float * string)
  : M Axes (list lineref) :=
  let '(x, y, c) := args in
  if Nat.eqb (List.length x) (List.length y) then
    ax <- get ;;
    modify (set_lines_field (lines ax ++ [mkLine2D x y c])) ;;;
    ret [List.length (lines ax)]
  else
    raise (ValueError "x and y must have same first dimension").

(** [Axes.fill(x, y, closed=..., facecolor=..., alpha=..., label=...)]. *)
Definition fill (closed : bool) (x y : list float) (facecolor : string)
           (alpha : Q) (label : string) : M Axes unit :=
  ax <- get ;;
  modify (set_patches_field
            (patches ax ++ [mkPolygon x y closed facecolor alpha label])).

Definition set_theta_zero_location (loc : string) : M Axes unit :=
  modify (set_theta_zero_location_field loc).

Definition set_rgrids (radii : list Q) : M Axes unit :=
  modify (set_rgrids_field radii).

Definition set_title (t : string) : M Axes unit :=
  modify (set_title_field t).

Definition legend (labels : list string) : M Axes unit :=
  modify (set_legend_field labels).

(** [set_thetagrids(angles, labels)]: the ticks are set at the angles; an
    empty list of labels leaves every tick with an empty label, a list of
    as many labels as angles gives the i-th label to the i-th angle, and
    any other list is refused. *)
Definition set_thetagrids (angles : list R) (labels : list string)
  : M Axes unit :=
  match labels with
  | [] => modify (set_thetagrids_field (map (fun a => (a, "")) angles))
  | _ :: _ =>
      if Nat.eqb (List.length labels) (List.length angles) then
        modify (set_thetagrids_field (combine angles labels))
      else
        raise (ValueError "The number of FixedLocator locations does not match the number of labels")
  end.

(** The parent's spines. *)
Definition _gen_axes_spines : result (list (string * Spine)) :=
  OK [("polar", ArcSpine)].

(** [PolarAxes.__init__]: the constructor asks the object (by dynamic
    dispatch, hence the two arguments) for its spines and then for its
    frame patch. *)
Definition __init__ (gen_axes_spines : result (list (string * Spine)))
           (gen_axes_patch : result Patch) : M Axes unit :=
  sp <- lift gen_axes_spines ;;
  modify (set_spines_field sp) ;;;
  p <- lift gen_axes_patch ;;
  modify (set_patch_field p).

End PolarAxes.

(** ** [class RadarTransform(PolarAxes.PolarTransform)] *)

Module RadarTransform.
Section closure.

(** Captured from [radar_factory]. *)
Variable num_vars : Z.

(** The library's [Path.interpolated(steps)] and the parent's
    [PolarTransform.transform(vertices)]. *)
Variable interpolated : Path -> Z -> Path.
Variable transform : list (R * R) -> list (R * R).

Definition transform_path_non_affine (path : Path) : Path :=
  let path :=
    if (_interpolation_steps path >? 1)%Z then interpolated path num_vars
    else path in
  Path_new (transform (vertices path)) (codes path).

End closure.
End RadarTransform.

(** ** [class RadarAxes(PolarAxes)] *)

Module RadarAxes.
Section closure.

(** Captured from [radar_factory]; the class is built after [np.linspace]
    has returned, hence with a count that is not negative. *)
Variable num_vars : Z.
Variable frame : string.
Variable theta : list R.

(** [super().plot]: the arguments are passed through untouched. *)
Variable Args : Type.
Variable super_plot : Args -> M Axes (list lineref).

Definition name : string := "radar".
Definition RESOLUTION : Z := 1.

(** [line.get_data()] *)
Definition get_data (line : lineref) : M Axes (list float * list float) :=
  ax <- get ;;
  match nth_error (lines ax) line with
  | Some l => ret (xdata l, ydata l)
  | None => raise (NameError "no such line")
  end.

(** [line.set_data(x, y)] *)
Definition set_data (line : lineref) (x y : list float) : M Axes unit :=
  ax <- get ;;
  match nth_error (lines ax) line with
  | Some l =>
      modify (set_lines_field
                (list_update (lines ax) line (mkLine2D x y (color l))))
  | None => raise (NameError "no such line")
  end.

Definition _close_line (line : lineref) : M Axes unit :=
  xy <- get_data line ;;
  let '(x, y) := xy in
  x0 <- lift (np.index x 0) ;;
  xlast <- lift (np.index x (-1)) ;;
  if float_ne x0 xlast then
    x0 <- lift (np.index x 0) ;;
    let x := np.append x x0 in
    y0 <- lift (np.index y 0) ;;
    let y := np.append y y0 in
    set_data line x y
  else
    ret tt.

Definition plot (args : Args) : M Axes pyret :=
  lines <- super_plot args ;;
  for_each lines _close_line ;;;
  ret PyNone.

(** [closed] is a keyword argument whose default is [True]. *)
Definition fill (closed : bool) (x y : list float) (facecolor : string)
           (alpha : Q) (label : string) : M Axes unit :=
  PolarAxes.fill closed x y facecolor alpha label.

Definition set_varlabels (labels : list string) : M Axes unit :=
  PolarAxes.set_thetagrids (np.degrees theta) labels.

Definition _gen_axes_patch : result Patch :=
  if String.eqb frame "circle" then
    OK (Circle (0.5, 0.5)%Q 0.5%Q)
  else if String.eqb frame "polygon" then
    RegularPolygon_new (0.5, 0.5)%Q num_vars 0.5%Q "k"
  else
    Raise (ValueError ("Unknown value for 'frame': " ++ frame)%string).

Definition _gen_axes_spines : result (list (string * Spine)) :=
  if String.eqb frame "circle" then
    PolarAxes._gen_axes_spines
  else if String.eqb frame "polygon" then
    match Path_unit_regular_polygon num_vars with
    | OK path => OK [("polar", PolygonSpine "circle" path 0.5%Q (0.5, 0.5)%Q)]
    | Raise e => Raise e
    end
  else
    Raise (ValueError ("Unknown value for 'frame': " ++ frame)%string).

Definition __init__ : M Axes unit :=
  PolarAxes.__init__ _gen_axes_spines _gen_axes_patch ;;;
  PolarAxes.set_theta_zero_location "N".

End closure.

Arguments plot {Args} super_plot args.

End RadarAxes.

(** ** [radar_factory] *)

(** The class object that [radar_factory] builds: the class body above
    together with the values its methods captured. *)
Record AxesClass : Type := mkAxesClass {
  cls_name : string;
  cls_num_vars : Z;
  cls_frame : string;
  cls_theta : list R
}.

(** The library's table of projections, by name; a later registration under
    the same name shadows the earlier one. *)
Definition Registry : Type := list (string * AxesClass).

Definition register_projection (cls : AxesClass) : M Registry unit :=
  modify (fun reg => (cls_name cls, cls) :: reg).

Fixpoint get_projection_class (reg : Registry) (name : string)
  : result AxesClass :=
  match reg with
  | [] => Raise (ValueError ("Unknown projection " ++ name)%string)
  | (n, cls) :: reg' =>
      if String.eqb n name then OK cls else get_projection_class reg' name
  end.

Definition radar_factory (num_vars : Z) (frame : string)
  : M Registry (list R) :=
  theta <- lift (np.linspace 0 (2 * np.pi) num_vars) ;;
  register_projection (mkAxesClass RadarAxes.name num_vars frame theta) ;;;
  ret theta.

(** ** [example_data] *)

(** An element of the list that [example_data] builds: the row of category
    labels (a list of strings) or a pair of a map name and its player rows. *)
Inductive Item : Type :=
| Labels (labels : list string)
| MapEntry (name : string) (case_data : list (list Q)).

Definition example_data : list Item :=
  [ Labels ["Kills"; "ACS"; "K-D Difference"; "Assists"; "KAST%"; "ADR"; "HS%";
            "First Kills"; "First Kill Difference"];
    MapEntry "Icebox" [
        [0.7; 0.803448276; 0; 1; 1; 0.79787234; 0.41; 0; 0];
        [0.95; 0.910344828; 1; 0.363636364; 0.833333333; 0.835106383; 0.52; 1; 1];
        [1; 1; 0.66; 0.545454545; 0.777777778; 1; 0.25; 1; 1];
        [0.8; 0.827586207; 0.33; 0.636363636; 0.888888889; 0.808510638; 0.29; 0.66; 1];
        [0.75; 0.686206897; 0; 0.363636364; 0.722222222; 0.760638298; 0.44; 0.66; 1]];
    MapEntry "Fracture" [
        [0.681818182; 0.75432526; 0.666; 1; 1; 1; 0.33; 0.666; 1];
        [0.681818182; 0.747404844; 0.5; 0.1; 0.8; 0.781420765; 0.14; 0.666; 0];
        [0.727272727; 0.757785467; 0.333; 0.4; 0.866666667; 0.74863388; 0.20; 0.166; 0];
        [1; 1; 0.833; 0.5; 1; 0.928961749; 0.23; 0.166; 1];
        [0.545454545; 0.574394464; 0.166; 0.4; 0.8; 0.595628415; 0.18; 0.166; 0]];
    MapEntry "Haven" [
        [0.72; 0.740524781; 0.666; 0.5; 0.866666667; 0.792079208; 0.35; 0.333; 0.5];
        [0.64; 0.67638484; 0.5; 0.375; 0.933333333; 0.742574257; 0.42; 0.333; 0.166];
        [1; 1; 0.833; 0.125; 1; 1; 0.18; 0.833; 0.833];
        [0.32; 0.38483965; 0.166; 1; 0.733333333; 0.52970297; 0.16; 0.166; 0.5];
        [0.52; 0.56851312; 0.333; 0.625; 0.866666667; 0.643564356; 0.26; 0.333; 0.166]];
    MapEntry "Breeze" [
        [0.85; 0.843636364; 0.833; 0.857142857; 0.948051948; 0.828571429; 0.5; 0.166; 0.5];
        [0.75; 0.683636364; 0.333; 0.714285714; 1; 0.72; 0.37; 0.5; 0.5];
        [1; 1; 0.5; 0.714285714; 0.948051948; 1; 0.27; 0.833; 0.166];
        [0.95; 0.88; 0.5; 0.571428571; 0.831168831; 0.954285714; 0.45; 0.166; 0.833];
        [0.6; 0.581818182; 0.166; 1; 0.831168831; 0.605714286; 0.21; 0.5; 0.333]]
  ]%Q.

(** ** The script under [if __name__ == '__main__'] *)

(** The module's global names, the figure and the library's registry.  A name
    that has not been assigned yet is [None]; [data] holds the list object
    that [example_data] returned, so that a method that mutates the list is
    seen through the name. *)
Record World : Type := mkWorld {
  projection_registry : Registry;
  theta : option (list R);
  data : option (list Item);
  spoke_labels : option Item;
  axs : list (AxesClass * Axes);
  colors : option (list string);
  labels : option (list string);
  fig_text : list string;
  shown : bool
}.

Definition initial_world : World :=
  mkWorld [] None None None [] None None [] false.

Definition set_registry (r : Registry) (w : World) : World :=
  mkWorld r (theta w) (data w) (spoke_labels w) (axs w) (colors w) (labels w)
          (fig_text w) (shown w).

Definition set_theta (t : list R) (w : World) : World :=
  mkWorld (projection_registry w) (Some t) (data w) (spoke_labels w) (axs w)
          (colors w) (labels w) (fig_text w) (shown w).

Definition set_data (d : list Item) (w : World) : World :=
  mkWorld (projection_registry w) (theta w) (Some d) (spoke_labels w) (axs w)
          (colors w) (labels w) (fig_text w) (shown w).

Definition set_spoke_labels (l : Item) (w : World) : World :=
  mkWorld (projection_registry w) (theta w) (data w) (Some l) (axs w)
          (colors w) (labels w) (fig_text w) (shown w).

Definition set_axs (a : list (AxesClass * Axes)) (w : World) : World :=
  mkWorld (projection_registry w) (theta w) (data w) (spoke_labels w) a
          (colors w) (labels w) (fig_text w) (shown w).

Definition set_colors (c : list string) (w : World) : World :=
  mkWorld (projection_registry w) (theta w) (data w) (spoke_labels w) (axs w)
          (Some c) (labels w) (fig_text w) (shown w).

Definition set_labels (l : list string) (w : World) : World :=
  mkWorld (projection_registry w) (theta w) (data w) (spoke_labels w) (axs w)
          (colors w) (Some l) (fig_text w) (shown w).

Definition add_fig_text (t : string) (w : World) : World :=
  mkWorld (projection_registry w) (theta w) (data w) (spoke_labels w) (axs w)
          (colors w) (labels w) (fig_text w ++ [t]) (shown w).

Definition set_shown (w : World) : World :=
  mkWorld (projection_registry w) (theta w) (data w) (spoke_labels w) (axs w)
          (colors w) (labels w) (fig_text w) true.

(** Reading a global name. *)
Definition load {A : Type} (name : string) (field : World -> option A)
  : M World A :=
  w <- get ;;
  match field w with
  | Some v => ret v
  | None => raise (NameError ("name '" ++ name ++ "' is not defined")%string)
  end.

(** Running a computation on the registry inside the world. *)
Definition with_registry {A : Type} (m : M Registry A) : M World A :=
  fun w => match m (projection_registry w) with
           | OK (a, r) => OK (a, set_registry r w)
           | Raise e => Raise e
           end.

(** Calling a method of the [i]-th axes: [m] receives the class of the object
    (for the captured values) and runs on the object's state. *)
Definition on_axes {A : Type} (i : nat) (m : AxesClass -> M Axes A)
  : M World A :=
  fun w => match nth_error (axs w) i with
           | Some (cls, ax) =>
               match m cls ax with
               | OK (a, ax') => OK (a, set_axs (list_update (axs w) i (cls, ax')) w)
               | Raise e => Raise e
               end
           | None => Raise (IndexError "index out of bounds")
           end.

(** [list.pop(0)] on the list object bound to [data]. *)
Definition data_pop0 : M World Item :=
  d <- load "data" data ;;
  match d with
  | [] => raise (IndexError "pop from empty list")
  | x :: rest => modify (set_data rest) ;;; ret x
  end.

(** [plt.subplots(nrows=2, ncols=2, subplot_kw=dict(projection='radar'))]:
    four axes objects of the class registered under the name. *)
Definition subplots (nrows ncols : nat) (projection : string) : M World unit :=
  w <- get ;;
  cls <- lift (get_projection_class (projection_registry w) projection) ;;
  modify (set_axs []) ;;;
  for_each (seq 0 (nrows * ncols))
    (fun _ =>
       match RadarAxes.__init__ (cls_num_vars cls) (cls_frame cls) blank_axes with
       | OK (_, ax) => w <- get ;; modify (set_axs (axs w ++ [(cls, ax)]))
       | Raise e => raise e
       end).

(** The methods of an axes object, dispatched on its class. *)
Definition ax_plot (x y : list float) (c : string) (cls : AxesClass)
  : M Axes pyret :=
  RadarAxes.plot PolarAxes.plot (x, y, c).

Definition ax_fill (x y : list float) (facecolor : string) (alpha : Q)
           (label : string) (cls : AxesClass) : M Axes unit :=
  RadarAxes.fill true x y facecolor alpha label.

Definition ax_set_varlabels (labels : list string) (cls : AxesClass)
  : M Axes unit :=
  RadarAxes.set_varlabels (cls_theta cls) labels.

(** The body of the outer loop, for the [i]-th axes and one element of
    [data]; the element is unpacked as [(title, case_data)]. *)
Definition plot_case (i : nat) (entry : Item) : M World unit :=
  match entry with
  | Labels _ => raise (ValueError "too many values to unpack (expected 2)")
  | MapEntry title case_data =>
      on_axes i (fun _ => PolarAxes.set_rgrids [0.2; 0.4; 0.6; 0.8]%Q) ;;;
      on_axes i (fun _ => PolarAxes.set_title title) ;;;
      th <- load "theta" theta ;;
      cs <- load "colors" colors ;;
      for_each (combine case_data cs)
        (fun dc =>
           let '(d, color) := dc in
           on_axes i (ax_plot (floats th) (floats (map Q2R d)) color) ;;;
           on_axes i (ax_fill (floats th) (floats (map Q2R d)) color 0.25%Q
                              "_nolegend_")) ;;;
      sl <- load "spoke_labels" spoke_labels ;;
      match sl with
      | Labels ls => on_axes i (ax_set_varlabels ls)
      | MapEntry _ _ => raise (ValueError "labels must be a sequence of strings")
      end
  end.

(** The statements of the script, in order. *)

(** [N = 9; theta = radar_factory(N, frame='polygon')] *)
Definition stmt_theta : M World unit :=
  th <- with_registry (radar_factory 9 "polygon") ;;
  modify (set_theta th).

(** [data = example_data()] *)
Definition stmt_data : M World unit :=
  modify (set_data example_data).

(** [spoke_labels = data.pop(0)] *)
Definition stmt_spoke_labels : M World unit :=
  x <- data_pop0 ;;
  modify (set_spoke_labels x).

(** [fig, axs = plt.subplots(..., nrows=2, ncols=2,
                            subplot_kw=dict(projection='radar'))] *)
Definition stmt_subplots : M World unit :=
  subplots 2 2 "radar".

(** [colors = ['b', 'r', 'g', 'm', 'y']] *)
Definition stmt_colors : M World unit :=
  modify (set_colors ["b"; "r"; "g"; "m"; "y"]).

(** [for ax, (title, case_data) in zip(axs.flat, data): ...] *)
Definition stmt_loop : M World unit :=
  d <- load "data" data ;;
  w <- get ;;
  for_each (combine (seq 0 (List.length (axs w))) d)
    (fun ie => plot_case (fst ie) (snd ie)).

(** [labels = (...); legend = axs[0, 0].legend(labels, ...)] *)
Definition stmt_legend : M World unit :=
  modify (set_labels ["Shao"; "Zyppan"; "Jinggg"; "SUGETSU"; "ANGE1"]) ;;;
  ls <- load "labels" labels ;;
  on_axes 0 (fun _ => PolarAxes.legend ls).

(** [fig.text(0.5, 0.965, '...', ...)] *)
Definition stmt_text : M World unit :=
  modify (add_fig_text
    "Top 5 players across the last 4 maps of Masters Copenhagen 2022").

(** [plt.show()] *)
Definition stmt_show : M World unit :=
  modify set_shown.

Definition main : list (M World unit) :=
  [ stmt_theta; stmt_data; stmt_spoke_labels; stmt_subplots; stmt_colors;
    stmt_loop; stmt_legend; stmt_text; stmt_show ].

(** Running a list of statements: the worlds reached after each statement
    that completed, and the exception that stopped the run, if any. *)
Fixpoint exec (prog : list (M World unit)) (w : World)
  : list World * option exn :=
  match prog with
  | [] => ([], None)
  | s :: rest =>
      match s w with
      | OK (_, w') => (w' :: fst (exec rest w'), snd (exec rest w'))
      | Raise e => ([], Some e)
      end
  end.

(** The table is the one that [example_data] built, in every world that the
    script reaches from the assignment [data = example_data()] on (the
    worlds after the second statement and after every later one). *)
Definition table_never_mutated : Prop :=
  forall i w,
    1 <= i ->
    nth_error (fst (exec main initial_world)) i = Some w ->
    data w = Some example_data.

(** The label row and the four map entries of the table. *)
Definition label_row : Item := hd (Labels []) example_data.
Definition map_entries : list Item := tl example_data.

(** The worlds that the first statements of the script reach. *)
Definition script_theta : list R :=
  map (fun yi => yi * ((2 * PI - 0) / IZR 9) + 0)%R (np.arange 9).

Definition radar_class : AxesClass :=
  mkAxesClass "radar" 9 "polygon" script_theta.

Definition world_after_theta : World :=
  set_theta script_theta (set_registry [("radar", radar_class)] initial_world).

Definition world_after_data : World :=
  set_data example_data world_after_theta.

Definition world_after_spoke_labels : World :=
  set_spoke_labels label_row (set_data map_entries world_after_data).

(** An axes object of the script, as its constructor leaves it. *)
Definition polygon_axes : Axes :=
  set_theta_zero_location_field "N"
    (set_patch_field (RegularPolygon (0.5, 0.5)%Q 9 0.5%Q "k")
       (set_spines_field
          [("polar", PolygonSpine "circle" 9 0.5%Q (0.5, 0.5)%Q)] blank_axes)).

Definition world_after_subplots : World :=
  set_axs (repeat (radar_class, polygon_axes) 4) world_after_spoke_labels.

Definition world_after_colors : World :=
  set_colors ["b"; "r"; "g"; "m"; "y"] world_after_subplots.

(** What a statement may change besides the axes objects: nothing. *)
Definition globals_kept (w w' : World) : Prop :=
  projection_registry w' = projection_registry w /\
  theta w' = theta w /\
  data w' = data w /\
  spoke_labels w' = spoke_labels w /\
  colors w' = colors w /\
  map fst (axs w') = map fst (axs w).

(** A player row: nine values between 0 and 1. *)
Definition player_row (row : list Q) : Prop :=
  List.length row = 9 /\ Forall (fun v => (0 <= v <= 1)%Q) row.

(** A map entry: a name with five player rows. *)
Definition map_entry (it : Item) : Prop :=
  exists name rows,
    it = MapEntry name rows /\ List.length rows = 5 /\ Forall player_row rows.

(** ** Vocabulary of the properties *)

(** The last element of a list, if any. *)
Definition last_error {A : Type} (l : list A) : option A :=
  nth_error l (List.length l - 1).

(** The first and the last data point of a line: [(x[0], y[0])] and
    [(x[-1], y[-1])]. *)
Definition first_point (l : Line2D) : option (float * float) :=
  match hd_error (xdata l), hd_error (ydata l) with
  | Some a, Some b => Some (a, b)
  | _, _ => None
  end.

Definition last_point (l : Line2D) : option (float * float) :=
  match last_error (xdata l), last_error (ydata l) with
  | Some a, Some b => Some (a, b)
  | _, _ => None
  end.

(** The line holds at least one point. *)
Definition nonempty_line (ax : Axes) (line : lineref) : Prop :=
  exists l, nth_error (lines ax) line = Some l /\
            xdata l <> [] /\ ydata l <> [].

(** The closing operation, as the spec words it: whenever the first and the
    last data point of the line differ, the operation leaves a line whose
    first and last points are identical and whose earlier points are
    untouched. *)
Definition closes_whenever_end_points_differ (ax : Axes) (line : lineref)
  : Prop :=
  forall l,
    nth_error (lines ax) line = Some l ->
    first_point l <> last_point l ->
    exists ax' l',
      RadarAxes._close_line line ax = OK (tt, ax') /\
      nth_error (lines ax') line = Some l' /\
      first_point l' = last_point l' /\
      (forall i, (i < List.length (xdata l))%nat ->
                 nth_error (xdata l') i = nth_error (xdata l) i) /\
      (forall i, (i < List.length (ydata l))%nat ->
                 nth_error (ydata l') i = nth_error (ydata l) i).

(** An axes object with the single line through (0, 1) and (0, 2). *)
Definition axes_with_vertical_line : Axes :=
  set_lines_field [mkLine2D (floats [0; 0]%R) (floats [1; 2]%R) "b"]
                  blank_axes.

(** An axes object with the single line through (0, 1), (1, 2) and (0, 3):
    the first and the last point share the angle, not the radius. *)
Definition axes_with_open_line : Axes :=
  set_lines_field [mkLine2D (floats [0; 1; 0]%R) (floats [1; 2; 3]%R) "b"]
                  blank_axes.

(** An axes object with the single line through (0, 1), (1, 2) and (2, 3). *)
Definition axes_with_three_points : Axes :=
  set_lines_field [mkLine2D (floats [0; 1; 2]%R) (floats [1; 2; 3]%R) "b"]
                  blank_axes.

(** Label placement, as the spec words it: a number of labels other than
    the number of angles makes [set_varlabels] fail. *)
Definition set_varlabels_rejects_mismatch (th : list R) (labels : list string)
           (ax : Axes) : Prop :=
  List.length labels <> List.length th ->
  exists e, RadarAxes.set_varlabels th labels ax = Raise e.

(** An axes object with the single line through (NaN, 1) and (1, 2). *)
Definition axes_with_nan_line : Axes :=
  set_lines_field [mkLine2D [NaN; Finite 1] (floats [1; 2]%R) "b"] blank_axes.

(** The centre, the radius and the number of sides of a frame patch. *)
Definition patch_center (p : Patch) : Q * Q :=
  match p with
  | Circle xy _ => xy
  | RegularPolygon xy _ _ _ => xy
  end.

Definition patch_radius (p : Patch) : Q :=
  match p with
  | Circle _ r => r
  | RegularPolygon _ _ r _ => r
  end.

Definition patch_sides (p : Patch) : option Z :=
  match p with
  | Circle _ _ => None
  | RegularPolygon _ n _ _ => Some n
  end.

(** The message of the error names the value. *)
Definition names_value (msg value : string) : Prop :=
  exists before after, msg = (before ++ value ++ after)%string.

(** The setup call, as the spec words it: [radar_factory] itself fails with
    an invalid-value error that names the frame. *)
Definition radar_factory_rejects_frame (N : Z) (frame : string)
           (reg : Registry) : Prop :=
  exists msg,
    radar_factory N frame reg = Raise (ValueError msg) /\
    names_value msg frame.

(** The error of [_gen_axes_patch] and [_gen_axes_spines]. *)
Definition unknown_frame (frame : string) : exn :=
  ValueError ("Unknown value for 'frame': " ++ frame)%string.

(** A model of the library's [Path.interpolated(steps)], for the examples:
    every segment is cut into [steps] equal pieces, and a path given one
    step is returned as it is. *)
Fixpoint simple_linear_interpolation (steps : nat) (a : list (R * R))
  : list (R * R) :=
  match a with
  | [] => []
  | v :: rest =>
      match rest with
      | [] => [v]
      | w :: _ =>
          map (fun j => (fst v + INR j / INR steps * (fst w - fst v),
                         snd v + INR j / INR steps * (snd w - snd v))%R)
              (seq 0 steps)
          ++ simple_linear_interpolation steps rest
      end
  end.

Definition LINETO : Z := 2.

Fixpoint interpolated_codes (steps : nat) (c : list Z) : list Z :=
  match c with
  | [] => []
  | k :: rest =>
      match rest with
      | [] => [k]
      | _ :: _ => k :: repeat LINETO (steps - 1) ++ interpolated_codes steps rest
      end
  end.

Definition Path_interpolated (path : Path) (steps : Z) : Path :=
  if (steps =? 1)%Z then path
  else
    Path_new (simple_linear_interpolation (Z.to_nat steps) (vertices path))
             (option_map (interpolated_codes (Z.to_nat steps)) (codes path)).

(** A model of the parent's [PolarTransform.transform], for the examples:
    the point at angle [t] and radius [r], with angle zero at the top. *)
Definition PolarTransform_transform (v : list (R * R)) : list (R * R) :=
  map (fun tr => (snd tr * cos (fst tr + PI / 2),
                  snd tr * sin (fst tr + PI / 2))%R) v.

(** A gridline at radius [r]: the path from angle 0 to angle [2π], marked
    for interpolation. *)
Definition gridline (r : R) : Path :=
  mkPath [(0, r); (2 * PI, r)]%R None 180.

(** The two axes objects agree on everything but their lists of lines. *)
Definition same_but_lines (ax ax' : Axes) : Prop :=
  set_lines_field (lines ax) ax' = ax.

(** The error of dividing by a count of zero. *)
Definition zero_division : exn := ZeroDivisionError "float division by zero".

(** The error of indexing past the end of an array. *)
Definition out_of_bounds : exn := IndexError "index out of bounds".

(** The world [w] is [w0] but for the axes objects, of which the [i]-th is
    in the state [ax] and the others are as in [w0]. *)
Definition axes_is (i : nat) (cls : AxesClass) (ax : Axes) (w0 w : World)
  : Prop :=
  globals_kept w0 w /\
  nth_error (axs w) i = Some (cls, ax) /\
  (forall j, j <> i -> nth_error (axs w) j = nth_error (axs w0) j).

(** The line and the filled polygon that the script draws for a player row
    [d] in the colour [c] over the angles [th]: the line is the row followed
    by its first point again. *)
Definition closed_trace (th : list R) (dc : list Q * string) : Line2D :=
  mkLine2D (floats th ++ firstn 1 (floats th))
           (floats (map Q2R (fst dc)) ++ firstn 1 (floats (map Q2R (fst dc))))
           (snd dc).

Definition filled_trace (th : list R) (dc : list Q * string) : Polygon :=
  mkPolygon (floats th) (floats (map Q2R (fst dc))) true (snd dc) 0.25%Q
            "_nolegend_".

Definition add_trace (th : list R) (ax : Axes) (dc : list Q * string) : Axes :=
  set_patches_field
    (patches ax ++ [filled_trace th dc])
    (set_lines_field (lines ax ++ [closed_trace th dc]) ax).

(** The chart of a map entry: what the body of the outer loop leaves in an
    axes object that the constructor has just built. *)
Definition chart_of (th : list R) (cs ls : list string) (entry : Item)
           (ax : Axes) : Prop :=
  match entry with
  | MapEntry t rows =>
      title ax = t /\
      rgrids ax = [0.2; 0.4; 0.6; 0.8]%Q /\
      lines ax = map (closed_trace th) (combine rows cs) /\
      patches ax = map (filled_trace th) (combine rows cs) /\
      thetagrids ax = combine (np.degrees th) ls /\
      theta_zero_location ax = "N" /\
      patch ax = Some (RegularPolygon (0.5, 0.5)%Q 9 0.5%Q "k")
  | Labels _ => False
  end.

(** A closed line of ten points. *)
Definition closed_ten_point_line (l : Line2D) : Prop :=
  List.length (xdata l) = 10 /\
  List.length (ydata l) = 10 /\
  first_point l = last_point l.

(** The constants of the script. *)
Definition script_colors : list string := ["b"; "r"; "g"; "m"; "y"].

Definition script_labels : list string :=
  ["Kills"; "ACS"; "K-D Difference"; "Assists"; "KAST%"; "ADR"; "HS%";
   "First Kills"; "First Kill Difference"].

Definition script_players : list string :=
  ["Shao"; "Zyppan"; "Jinggg"; "SUGETSU"; "ANGE1"].

Definition script_banner : string :=
  "Top 5 players across the last 4 maps of Masters Copenhagen 2022".

(** The two worlds agree on everything but their axes objects. *)
Definition only_axes (w w' : World) : Prop :=
  set_axs (axs w) w' = w.

(** The line [j] of the axes holds at least one point and its first and
    last angles are the same value (the same number, or NaN both). *)
Definition angle_closed (ax : Axes) (j : lineref) : Prop :=
  exists l x0,
    nth_error (lines ax) j = Some l /\
    hd_error (xdata l) = Some x0 /\
    last_error (xdata l) = Some x0.

(** * Properties *)

(** ** Evaluation of the monad *)

Lemma bind_OK {S A B : Type} (m : M S A) (k : A -> M S B) s a s' :
  m s = OK (a, s') -> bind m k s = k a s'.
Proof. intros H. unfold bind. now rewrite H. Qed.

Lemma bind_Raise {S A B : Type} (m : M S A) (k : A -> M S B) s e :
  m s = Raise e -> bind m k s = Raise e.
Proof. intros H. unfold bind. now rewrite H. Qed.

Lemma bind_inv {S A B : Type} (m : M S A) (k : A -> M S B) s b s'' :
  bind m k s = OK (b, s'') ->
  exists a s', m s = OK (a, s') /\ k a s' = OK (b, s'').
Proof.
  unfold bind. destruct (m s) as [[a s'] | e]; intros H; [| discriminate].
  now exists a, s'.
Qed.

(** ** The axis angles *)

Section Angles.
Local Open Scope R_scope.

Lemma nth_map_arange (f : R -> R) (n i : nat) :
  (i < n)%nat -> nth i (map f (map INR (seq 0 n))) 0 = f (INR i).
Proof.
  intros Hi.
  rewrite (nth_indep _ 0 (f (INR 0))) by now rewrite !length_map, length_seq.
  rewrite map_nth, map_nth, seq_nth by assumption.
  reflexivity.
Qed.

Lemma linspace_2pi (N : Z) :
  (1 <= N)%Z ->
  np.linspace 0 (2 * np.pi) N
  = OK (map (fun yi => yi * ((2 * PI - 0) / IZR N) + 0) (np.arange N)).
Proof.
  intros HN. unfold np.linspace, np.pi.
  destruct (Z.ltb_spec N 0); [lia |].
  destruct (Z.ltb_spec 0 N); [reflexivity | lia].
Qed.

Lemma linspace_length (start stop : R) (N : Z) (th : list R) :
  np.linspace start stop N = OK th -> List.length th = Z.to_nat N.
Proof.
  unfold np.linspace, np.arange.
  destruct (N <? 0)%Z; [discriminate |].
  destruct (0 <? N)%Z; intros H; injection H as <-;
    now rewrite !length_map, length_seq.
Qed.

Lemma radar_factory_OK (N : Z) (frame : string) (reg : Registry) (th : list R) :
  np.linspace 0 (2 * np.pi) N = OK th ->
  radar_factory N frame reg
  = OK (th, (RadarAxes.name, mkAxesClass RadarAxes.name N frame th) :: reg).
Proof.
  intros H. unfold radar_factory, bind, lift. rewrite H. reflexivity.
Qed.

Lemma IZR_to_nat (N : Z) : (0 <= N)%Z -> INR (Z.to_nat N) = IZR N.
Proof. intros H. rewrite INR_IZR_INZ, Z2Nat.id by assumption. reflexivity. Qed.

(** C1. For every integer [N >= 1], [radar_factory] with [num_vars = N]
    returns exactly [N] angles; the first is 0, the i-th is [2π·i/N], all lie
    in [[0, 2π)], they are strictly increasing and consecutive angles are
    [2π/N] apart. *)
Theorem radar_factory_angles (N : Z) (frame : string) (reg : Registry) :
  (1 <= N)%Z ->
  exists th reg',
    radar_factory N frame reg = OK (th, reg') /\
    List.length th = Z.to_nat N /\
    nth 0 th 0 = 0 /\
    (forall i, (i < Z.to_nat N)%nat -> nth i th 0 = 2 * PI * INR i / IZR N) /\
    (forall i, (i < Z.to_nat N)%nat -> 0 <= nth i th 0 < 2 * PI) /\
    (forall i j, (i < j < Z.to_nat N)%nat -> nth i th 0 < nth j th 0) /\
    (forall i, (S i < Z.to_nat N)%nat ->
               nth (S i) th 0 - nth i th 0 = 2 * PI / IZR N).
Proof.
  intros HN.
  pose proof (linspace_2pi N HN) as Hlin.
  set (th := map (fun yi => yi * ((2 * PI - 0) / IZR N) + 0) (np.arange N)) in *.
  assert (HNpos : 0 < IZR N) by (apply IZR_lt; lia).
  assert (Hpi : 0 < PI) by apply PI_RGT_0.
  assert (Hnth : forall i, (i < Z.to_nat N)%nat ->
                           nth i th 0 = 2 * PI * INR i / IZR N).
  { intros i Hi. unfold th, np.arange. rewrite nth_map_arange by assumption.
    field. lra. }
  assert (Hstep : 0 < 2 * PI / IZR N).
  { apply Rdiv_lt_0_compat; lra. }
  exists th, ((RadarAxes.name, mkAxesClass RadarAxes.name N frame th) :: reg).
  split; [now apply radar_factory_OK |].
  split; [now apply (linspace_length 0 (2 * np.pi)) |].
  split.
  { rewrite Hnth by lia. simpl. field. lra. }
  split; [exact Hnth |].
  split.
  { intros i Hi. rewrite Hnth by assumption.
    assert (Hi' : INR i < IZR N).
    { rewrite <- IZR_to_nat by lia. now apply lt_INR. }
    assert (Hi0 : 0 <= INR i) by apply pos_INR.
    replace (2 * PI * INR i / IZR N) with (2 * PI / IZR N * INR i)
      by (field; lra).
    split; [nra |].
    replace (2 * PI) with (2 * PI / IZR N * IZR N) at 2 by (field; lra).
    apply Rmult_lt_compat_l; assumption. }
  split.
  { intros i j [Hij Hj]. rewrite !Hnth by lia.
    assert (Hlt : INR i < INR j) by now apply lt_INR.
    replace (2 * PI * INR i / IZR N) with (2 * PI / IZR N * INR i)
      by (field; lra).
    replace (2 * PI * INR j / IZR N) with (2 * PI / IZR N * INR j)
      by (field; lra).
    apply Rmult_lt_compat_l; assumption. }
  intros i Hi. rewrite !Hnth by lia. rewrite S_INR. field. lra.
Qed.

(** The nine angles of the script. *)
Lemma radar_factory_angles_witness :
  (1 <= 9)%Z /\
  exists th reg',
    radar_factory 9 "polygon" [] = OK (th, reg') /\
    List.length th = Z.to_nat 9 /\
    nth 0 th 0 = 0 /\
    (forall i, (i < Z.to_nat 9)%nat -> nth i th 0 = 2 * PI * INR i / IZR 9) /\
    (forall i, (i < Z.to_nat 9)%nat -> 0 <= nth i th 0 < 2 * PI) /\
    (forall i j, (i < j < Z.to_nat 9)%nat -> nth i th 0 < nth j th 0) /\
    (forall i, (S i < Z.to_nat 9)%nat ->
               nth (S i) th 0 - nth i th 0 = 2 * PI / IZR 9).
Proof.
  split; [lia | apply (radar_factory_angles 9 "polygon" []); lia].
Defined.

End Angles.

(** ** Closing a line *)

Lemma float_ne_finite (a b : R) :
  a <> b -> float_ne (Finite a) (Finite b) = true.
Proof.
  intros H. cbn. destruct (Req_dec_T a b); [contradiction | reflexivity].
Qed.

Lemma float_ne_same (a : R) : float_ne (Finite a) (Finite a) = false.
Proof. cbn. destruct (Req_dec_T a a); [reflexivity | contradiction]. Qed.

Lemma float_ne_false_inv (a b : float) :
  float_ne a b = false -> exists r, a = Finite r /\ b = Finite r.
Proof.
  destruct a as [x |], b as [y |]; cbn; try discriminate.
  destruct (Req_dec_T x y) as [-> | _]; [| discriminate].
  intros _. now exists y.
Qed.

Lemma float_ne_true_finite (a b : R) :
  float_ne (Finite a) (Finite b) = true -> a <> b.
Proof. cbn. destruct (Req_dec_T a b); [discriminate | trivial]. Qed.

Lemma index_first {A : Type} (x : list A) (a : A) :
  hd_error x = Some a -> np.index x 0 = OK a.
Proof.
  destruct x as [| h t]; simpl; [discriminate |].
  intros H. injection H as ->. unfold np.index. cbn [List.length].
  destruct (Z.ltb_spec 0 0); [lia |].
  destruct (Z.ltb_spec 0 0); [lia |].
  destruct (Z.leb_spec (Z.of_nat (S (List.length t))) 0); [lia |].
  reflexivity.
Qed.

Lemma last_error_nonempty {A : Type} (x : list A) (a : A) :
  last_error x = Some a -> x <> [].
Proof. intros H ->. discriminate. Qed.

Lemma index_last {A : Type} (x : list A) (a : A) :
  last_error x = Some a -> np.index x (-1) = OK a.
Proof.
  intros H. pose proof (last_error_nonempty x a H) as Hne.
  unfold last_error in H. unfold np.index.
  assert (Hlen : (1 <= List.length x)%nat).
  { destruct x; [congruence | simpl; lia]. }
  destruct (Z.ltb_spec (-1) 0); [| lia].
  destruct (Z.ltb_spec (-1 + Z.of_nat (List.length x)) 0); [lia |].
  destruct (Z.leb_spec (Z.of_nat (List.length x))
                       (-1 + Z.of_nat (List.length x))); [lia |].
  cbn [orb].
  replace (Z.to_nat (-1 + Z.of_nat (List.length x)))
    with (List.length x - 1)%nat by lia.
  now rewrite H.
Qed.

Lemma hd_error_nonempty {A : Type} (x : list A) :
  x <> [] -> exists a, hd_error x = Some a.
Proof. destruct x as [| h t]; [congruence | now exists h]. Qed.

Lemma last_error_some {A : Type} (x : list A) :
  x <> [] -> exists a, last_error x = Some a.
Proof.
  intros H. unfold last_error.
  destruct (nth_error x (List.length x - 1)) eqn:E; [now eexists |].
  apply nth_error_None in E. destruct x; [congruence | simpl in E; lia].
Qed.

Lemma last_error_snoc {A : Type} (x : list A) (a : A) :
  last_error (x ++ [a]) = Some a.
Proof.
  unfold last_error. rewrite length_app. simpl.
  replace (List.length x + 1 - 1)%nat with (List.length x) by lia.
  rewrite nth_error_app2 by lia. now rewrite Nat.sub_diag.
Qed.

Lemma hd_error_snoc {A : Type} (x : list A) (a b : A) :
  hd_error x = Some a -> hd_error (x ++ [b]) = Some a.
Proof. destruct x; simpl; [discriminate | trivial]. Qed.

Lemma nth_error_list_update_eq {A : Type} (l : list A) (i : nat) (v : A) :
  (i < List.length l)%nat -> nth_error (list_update l i v) i = Some v.
Proof.
  revert i. induction l as [| h t IH]; intros [| i] H; simpl in *; try lia.
  - reflexivity.
  - apply IH. lia.
Qed.

Lemma nth_error_list_update_neq {A : Type} (l : list A) (i j : nat) (v : A) :
  i <> j -> nth_error (list_update l i v) j = nth_error l j.
Proof.
  revert i j. induction l as [| h t IH]; intros [| i] [| j] H; simpl;
    try reflexivity; try congruence.
  apply IH. congruence.
Qed.

Lemma get_data_OK (ax : Axes) (line : lineref) (l : Line2D) :
  nth_error (lines ax) line = Some l ->
  RadarAxes.get_data line ax = OK ((xdata l, ydata l), ax).
Proof. intros H. unfold RadarAxes.get_data, bind, get. now rewrite H. Qed.

Lemma set_data_OK (ax : Axes) (line : lineref) (l : Line2D)
      (x y : list float) :
  nth_error (lines ax) line = Some l ->
  RadarAxes.set_data line x y ax
  = OK (tt, set_lines_field
              (list_update (lines ax) line (mkLine2D x y (color l))) ax).
Proof. intros H. unfold RadarAxes.set_data, bind, get. now rewrite H. Qed.

(** What [_close_line] does when the first and the last angle differ. *)
Lemma close_line_open (ax : Axes) (line : lineref) (l : Line2D)
      (x0 xlast y0 : float) :
  nth_error (lines ax) line = Some l ->
  hd_error (xdata l) = Some x0 ->
  last_error (xdata l) = Some xlast ->
  float_ne x0 xlast = true ->
  hd_error (ydata l) = Some y0 ->
  RadarAxes._close_line line ax
  = OK (tt, set_lines_field
              (list_update (lines ax) line
                 (mkLine2D (xdata l ++ [x0]) (ydata l ++ [y0]) (color l))) ax).
Proof.
  intros Hl Hx0 Hxl Hne Hy0. unfold RadarAxes._close_line.
  rewrite (bind_OK _ _ _ _ _ (get_data_OK ax line l Hl)).
  unfold bind, lift.
  rewrite (index_first _ _ Hx0), (index_last _ _ Hxl), Hne.
  rewrite (index_first _ _ Hy0).
  now apply set_data_OK.
Qed.

(** What [_close_line] does when the first and the last angle are equal. *)
Lemma close_line_same_angle (ax : Axes) (line : lineref) (l : Line2D)
      (x0 xlast : float) :
  nth_error (lines ax) line = Some l ->
  hd_error (xdata l) = Some x0 ->
  last_error (xdata l) = Some xlast ->
  float_ne x0 xlast = false ->
  RadarAxes._close_line line ax = OK (tt, ax).
Proof.
  intros Hl Hx0 Hxl He. unfold RadarAxes._close_line.
  rewrite (bind_OK _ _ _ _ _ (get_data_OK ax line l Hl)).
  unfold bind, lift.
  rewrite (index_first _ _ Hx0), (index_last _ _ Hxl), He.
  reflexivity.
Qed.

(** C2, as amended.  For every line whose first and last angles differ
    ([x[0] != x[-1]]), [_close_line] appends the first point
    [(x[0], y[0])] to the end of the line: afterwards the first and the
    last point are identical, the earlier points are untouched and so are
    the other lines of the axes.  A line whose first and last angles are
    equal is left as it is. *)
Theorem close_line_appends_first_point
        (ax : Axes) (line : lineref) (l : Line2D) (x0 xlast : float) :
  nth_error (lines ax) line = Some l ->
  hd_error (xdata l) = Some x0 ->
  last_error (xdata l) = Some xlast ->
  (float_ne x0 xlast = true ->
   forall y0,
     hd_error (ydata l) = Some y0 ->
     exists ax' l',
       RadarAxes._close_line line ax = OK (tt, ax') /\
       nth_error (lines ax') line = Some l' /\
       xdata l' = xdata l ++ [x0] /\
       ydata l' = ydata l ++ [y0] /\
       first_point l' = Some (x0, y0) /\
       last_point l' = Some (x0, y0) /\
       (forall i, (i < List.length (xdata l))%nat ->
                  nth_error (xdata l') i = nth_error (xdata l) i) /\
       (forall i, (i < List.length (ydata l))%nat ->
                  nth_error (ydata l') i = nth_error (ydata l) i) /\
       (forall j, j <> line ->
                  nth_error (lines ax') j = nth_error (lines ax) j)) /\
  (float_ne x0 xlast = false ->
   RadarAxes._close_line line ax = OK (tt, ax)).
Proof.
  intros Hl Hx0 Hxl. split.
  - intros Hne y0 Hy0.
    eexists; exists (mkLine2D (xdata l ++ [x0]) (ydata l ++ [y0]) (color l)).
    split; [exact (close_line_open ax line l x0 xlast y0 Hl Hx0 Hxl Hne Hy0) |].
    cbn [lines set_lines_field xdata ydata].
    split.
    { apply nth_error_list_update_eq. apply nth_error_Some. congruence. }
    split; [reflexivity |]. split; [reflexivity |].
    split.
    { unfold first_point. cbn [xdata ydata].
      now rewrite (hd_error_snoc _ _ _ Hx0), (hd_error_snoc _ _ _ Hy0). }
    split.
    { unfold last_point. cbn [xdata ydata]. now rewrite !last_error_snoc. }
    split; [intros i Hi; now apply nth_error_app1 |].
    split; [intros i Hi; now apply nth_error_app1 |].
    intros j Hj. apply nth_error_list_update_neq. congruence.
  - intros He. exact (close_line_same_angle ax line l x0 xlast Hl Hx0 Hxl He).
Qed.

(** The line through (0, 1), (1, 2) and (2, 3) gets the point (0, 1)
    appended; the line through (0, 1), (1, 2) and (0, 3) is left as it is. *)
Lemma close_line_appends_first_point_witness :
  (exists ax' l',
      RadarAxes._close_line 0 axes_with_three_points = OK (tt, ax') /\
      nth_error (lines ax') 0 = Some l' /\
      xdata l' = floats [0; 1; 2]%R ++ [Finite 0] /\
      ydata l' = floats [1; 2; 3]%R ++ [Finite 1] /\
      first_point l' = Some (Finite 0, Finite 1) /\
      last_point l' = Some (Finite 0, Finite 1) /\
      (forall i, (i < 3)%nat ->
                 nth_error (xdata l') i = nth_error (floats [0; 1; 2]%R) i) /\
      (forall i, (i < 3)%nat ->
                 nth_error (ydata l') i = nth_error (floats [1; 2; 3]%R) i) /\
      (forall j, j <> 0%nat ->
                 nth_error (lines ax') j
                 = nth_error (lines axes_with_three_points) j)) /\
  RadarAxes._close_line 0 axes_with_open_line = OK (tt, axes_with_open_line).
Proof.
  split.
  - apply (proj1 (close_line_appends_first_point axes_with_three_points 0
                    (mkLine2D (floats [0; 1; 2]%R) (floats [1; 2; 3]%R) "b")
                    (Finite 0) (Finite 2) eq_refl eq_refl eq_refl));
      [apply float_ne_finite; lra | reflexivity].
  - apply (proj2 (close_line_appends_first_point axes_with_open_line 0
                    (mkLine2D (floats [0; 1; 0]%R) (floats [1; 2; 3]%R) "b")
                    (Finite 0) (Finite 0) eq_refl eq_refl eq_refl)).
    apply float_ne_same.
Defined.

(** C2, as the spec states it, fails: the line through (0, 1) and (0, 2)
    has different first and last points, and [_close_line] leaves it as it
    is. *)
Lemma close_line_leaves_vertical_line_open :
  ~ closes_whenever_end_points_differ axes_with_vertical_line 0.
Proof.
  intros H.
  destruct (H (mkLine2D (floats [0; 0]%R) (floats [1; 2]%R) "b") eq_refl)
    as (ax' & l' & Hc & Hl' & Hfl & _).
  - unfold first_point, last_point, last_error. cbn.
    intros E. injection E as E. lra.
  - rewrite (close_line_same_angle axes_with_vertical_line 0 _
               (Finite 0) (Finite 0) eq_refl eq_refl eq_refl
               (float_ne_same 0)) in Hc.
    injection Hc as <-. cbn in Hl'. injection Hl' as <-.
    unfold first_point, last_point, last_error in Hfl. cbn in Hfl.
    injection Hfl as E. lra.
Qed.

(** C9.  [_close_line] looks at the angles only: a line whose first and
    last angles are equal (Python's [==]) is left entirely unchanged,
    whatever its radial values, and a line whose first and last angles
    differ gets its first point appended. *)
Theorem close_line_compares_angles_only
        (ax : Axes) (line : lineref) (l : Line2D) (x0 xlast : float) :
  nth_error (lines ax) line = Some l ->
  hd_error (xdata l) = Some x0 ->
  last_error (xdata l) = Some xlast ->
  (float_ne x0 xlast = false -> RadarAxes._close_line line ax = OK (tt, ax)) /\
  (forall r, x0 = Finite r -> xlast = Finite r ->
             RadarAxes._close_line line ax = OK (tt, ax)) /\
  (float_ne x0 xlast = true ->
   forall y0, hd_error (ydata l) = Some y0 ->
     RadarAxes._close_line line ax
     = OK (tt, set_lines_field
                 (list_update (lines ax) line
                    (mkLine2D (xdata l ++ [x0]) (ydata l ++ [y0]) (color l)))
                 ax)) /\
  (forall a b, x0 = Finite a -> xlast = Finite b -> a <> b ->
   forall y0, hd_error (ydata l) = Some y0 ->
     RadarAxes._close_line line ax
     = OK (tt, set_lines_field
                 (list_update (lines ax) line
                    (mkLine2D (xdata l ++ [x0]) (ydata l ++ [y0]) (color l)))
                 ax)).
Proof.
  intros Hl Hx0 Hxl.
  assert (Hsame : float_ne x0 xlast = false ->
                  RadarAxes._close_line line ax = OK (tt, ax)).
  { intros He. exact (close_line_same_angle ax line l x0 xlast Hl Hx0 Hxl He). }
  assert (Hopen : float_ne x0 xlast = true ->
                  forall y0, hd_error (ydata l) = Some y0 ->
                    RadarAxes._close_line line ax
                    = OK (tt, set_lines_field
                                (list_update (lines ax) line
                                   (mkLine2D (xdata l ++ [x0]) (ydata l ++ [y0])
                                             (color l)))
                                ax)).
  { intros Hne y0 Hy0. now apply (close_line_open ax line l x0 xlast y0). }
  split; [exact Hsame |].
  split; [intros r -> ->; apply Hsame, float_ne_same |].
  split; [exact Hopen |].
  intros a b -> -> Hab. apply Hopen. now apply float_ne_finite.
Qed.

(** The line through (0, 1), (1, 2) and (0, 3) stays open. *)
Lemma close_line_compares_angles_only_witness :
  first_point (mkLine2D (floats [0; 1; 0]%R) (floats [1; 2; 3]%R) "b")
  <> last_point (mkLine2D (floats [0; 1; 0]%R) (floats [1; 2; 3]%R) "b") /\
  RadarAxes._close_line 0 axes_with_open_line = OK (tt, axes_with_open_line).
Proof.
  split.
  - unfold first_point, last_point, last_error. cbn.
    intros E. injection E as E. lra.
  - apply (proj1 (close_line_compares_angles_only axes_with_open_line 0
                    (mkLine2D (floats [0; 1; 0]%R) (floats [1; 2; 3]%R) "b")
                    (Finite 0) (Finite 0) eq_refl eq_refl eq_refl)).
    apply float_ne_same.
Defined.

(** ** [plot] *)

Lemma close_line_total (ax : Axes) (line : lineref) :
  nonempty_line ax line ->
  exists ax',
    RadarAxes._close_line line ax = OK (tt, ax') /\
    (forall j, nonempty_line ax j -> nonempty_line ax' j).
Proof.
  intros (l & Hl & Hx & Hy).
  destruct (hd_error_nonempty _ Hx) as [x0 Hx0].
  destruct (last_error_some _ Hx) as [xl Hxl].
  destruct (hd_error_nonempty _ Hy) as [y0 Hy0].
  destruct (float_ne x0 xl) eqn:Hne.
  2:{ exists ax.
      split; [now apply (close_line_same_angle ax line l x0 xl) | trivial]. }
  - eexists. split; [exact (close_line_open ax line l x0 xl y0 Hl Hx0 Hxl Hne Hy0) |].
    intros j (lj & Hlj & Hxj & Hyj). unfold nonempty_line.
    cbn [lines set_lines_field].
    destruct (Nat.eq_dec line j) as [<- | Hj].
    + eexists. split.
      * apply nth_error_list_update_eq. apply nth_error_Some. congruence.
      * cbn [xdata ydata]. split; intros E; now apply app_eq_nil in E.
    + exists lj. rewrite nth_error_list_update_neq by assumption. auto.
Qed.

Lemma for_each_close_line_total (refs : list lineref) :
  forall ax,
    Forall (nonempty_line ax) refs ->
    exists ax', for_each refs RadarAxes._close_line ax = OK (tt, ax').
Proof.
  induction refs as [| r refs IH]; intros ax Hall.
  - now exists ax.
  - inversion Hall as [| ? ? Hr Hrest]; subst.
    destruct (close_line_total ax r Hr) as (ax1 & Hc & Hkeep).
    destruct (IH ax1) as [ax' Hfe].
    { eapply Forall_impl; [| exact Hrest]. exact Hkeep. }
    exists ax'. cbn [for_each]. rewrite (bind_OK _ _ _ _ _ Hc). exact Hfe.
Qed.

Lemma plot_value {Args : Type} (super_plot : Args -> M Axes (list lineref))
      (args : Args) (ax : Axes) (r : pyret) (ax' : Axes) :
  RadarAxes.plot super_plot args ax = OK (r, ax') -> r = PyNone.
Proof.
  unfold RadarAxes.plot. intros H.
  apply bind_inv in H as (refs & ax1 & _ & H).
  apply bind_inv in H as (u & ax2 & _ & H).
  unfold ret in H. congruence.
Qed.

Lemma plot_total {Args : Type} (super_plot : Args -> M Axes (list lineref))
      (args : Args) (ax : Axes) (refs : list lineref) (ax1 : Axes) :
  super_plot args ax = OK (refs, ax1) ->
  Forall (nonempty_line ax1) refs ->
  exists ax', RadarAxes.plot super_plot args ax = OK (PyNone, ax').
Proof.
  intros Hsuper Hall.
  destruct (for_each_close_line_total refs ax1 Hall) as [ax' Hfe].
  exists ax'. unfold RadarAxes.plot.
  rewrite (bind_OK _ _ _ _ _ Hsuper), (bind_OK _ _ _ _ _ Hfe). reflexivity.
Qed.

(** C10.  [RadarAxes.plot] returns [None] and never the list of lines that
    the parent's [plot] returned.  It returns exactly when the parent's
    [plot] returns and every line that the parent returned can be closed,
    and the axes it leaves are those of the parent's [plot] with
    [_close_line] applied to each of these lines in turn; an exception of
    the parent or of the closing is passed on.  Lines that hold at least
    one point each can be closed. *)
Theorem plot_returns_None {Args : Type}
        (super_plot : Args -> M Axes (list lineref)) (args : Args) (ax : Axes) :
  (forall r ax',
      RadarAxes.plot super_plot args ax = OK (r, ax') ->
      r = PyNone /\
      exists refs ax1,
        super_plot args ax = OK (refs, ax1) /\
        for_each refs RadarAxes._close_line ax1 = OK (tt, ax')) /\
  (forall refs ax1 ax',
      super_plot args ax = OK (refs, ax1) ->
      for_each refs RadarAxes._close_line ax1 = OK (tt, ax') ->
      RadarAxes.plot super_plot args ax = OK (PyNone, ax')) /\
  (forall refs ax1,
      super_plot args ax = OK (refs, ax1) ->
      Forall (nonempty_line ax1) refs ->
      exists ax',
        RadarAxes.plot super_plot args ax = OK (PyNone, ax') /\
        for_each refs RadarAxes._close_line ax1 = OK (tt, ax')) /\
  (forall e,
      super_plot args ax = Raise e ->
      RadarAxes.plot super_plot args ax = Raise e) /\
  (forall refs ax1 e,
      super_plot args ax = OK (refs, ax1) ->
      for_each refs RadarAxes._close_line ax1 = Raise e ->
      RadarAxes.plot super_plot args ax = Raise e).
Proof.
  split; [| split; [| split; [| split]]].
  - intros r ax' H. split; [exact (plot_value _ _ _ _ _ H) |].
    unfold RadarAxes.plot in H.
    apply bind_inv in H as (refs & ax1 & Hsuper & H).
    apply bind_inv in H as ([] & ax2 & Hfe & H).
    unfold ret in H. injection H as _ <-.
    now exists refs, ax1.
  - intros refs ax1 ax' Hsuper Hfe. unfold RadarAxes.plot.
    now rewrite (bind_OK _ _ _ _ _ Hsuper), (bind_OK _ _ _ _ _ Hfe).
  - intros refs ax1 Hsuper Hall.
    destruct (for_each_close_line_total refs ax1 Hall) as [ax' Hfe].
    exists ax'. split; [| exact Hfe]. unfold RadarAxes.plot.
    now rewrite (bind_OK _ _ _ _ _ Hsuper), (bind_OK _ _ _ _ _ Hfe).
  - intros e Hsuper. unfold RadarAxes.plot. now apply bind_Raise.
  - intros refs ax1 e Hsuper Hfe. unfold RadarAxes.plot.
    rewrite (bind_OK _ _ _ _ _ Hsuper). now apply bind_Raise.
Qed.

(** Plotting the points (0, 1), (1, 2) and (2, 3) on fresh axes returns
    [None] and leaves the one line of the parent's [plot], closed by the
    point (0, 1). *)
Lemma plot_returns_None_witness :
  RadarAxes.plot PolarAxes.plot
    (floats [0; 1; 2]%R, floats [1; 2; 3]%R, "b") blank_axes
  = OK (PyNone,
        set_lines_field
          [mkLine2D (floats [0; 1; 2]%R ++ [Finite 0])
                    (floats [1; 2; 3]%R ++ [Finite 1]) "b"]
          blank_axes).
Proof.
  apply (proj1 (proj2 (plot_returns_None PolarAxes.plot
                         (floats [0; 1; 2]%R, floats [1; 2; 3]%R, "b")
                         blank_axes))
               [0%nat] axes_with_three_points).
  - reflexivity.
  - cbn [for_each].
    rewrite (bind_OK _ _ _ _ _
               (close_line_open axes_with_three_points 0
                  (mkLine2D (floats [0; 1; 2]%R) (floats [1; 2; 3]%R) "b")
                  (Finite 0) (Finite 2) (Finite 1) eq_refl eq_refl eq_refl
                  (float_ne_finite 0 2 ltac:(lra)) eq_refl)).
    reflexivity.
Defined.

Lemma list_update_snoc {A : Type} (l : list A) (a b : A) :
  list_update (l ++ [a]) (List.length l) b = l ++ [b].
Proof. induction l as [| h t IH]; simpl; [reflexivity | now rewrite IH]. Qed.

(** [plot] on fresh data: the parent's [plot] adds the line and
    [_close_line] closes it, when the first and the last angle differ. *)
Lemma plot_closes_new_line (x y : list float) (c : string) (ax : Axes)
      (x0 xlast y0 : float) :
  List.length x = List.length y ->
  hd_error x = Some x0 ->
  last_error x = Some xlast ->
  float_ne x0 xlast = true ->
  hd_error y = Some y0 ->
  RadarAxes.plot PolarAxes.plot (x, y, c) ax
  = OK (PyNone,
        set_lines_field (lines ax ++ [mkLine2D (x ++ [x0]) (y ++ [y0]) c]) ax).
Proof.
  intros Hlen Hx0 Hxl Hne Hy0.
  set (ax1 := set_lines_field (lines ax ++ [mkLine2D x y c]) ax).
  assert (Hsuper : PolarAxes.plot (x, y, c) ax
                   = OK ([List.length (lines ax)], ax1)).
  { unfold PolarAxes.plot. now rewrite Hlen, Nat.eqb_refl. }
  assert (Hnth : nth_error (lines ax1) (List.length (lines ax))
                 = Some (mkLine2D x y c)).
  { cbn [ax1 lines set_lines_field]. rewrite nth_error_app2 by lia.
    now rewrite Nat.sub_diag. }
  unfold RadarAxes.plot. rewrite (bind_OK _ _ _ _ _ Hsuper).
  cbn [for_each].
  rewrite (bind_OK _ _ _ _ _
             (bind_OK _ _ _ _ _
                (close_line_open ax1 _ _ x0 xlast y0 Hnth Hx0 Hxl Hne Hy0))).
  cbn [ax1 lines set_lines_field xdata ydata color].
  rewrite list_update_snoc. reflexivity.
Qed.

(** The first and the last of the nine angles of the script differ. *)
Lemma script_theta_ends :
  hd_error (floats script_theta)
  = Some (Finite (INR 0 * ((2 * PI - 0) / IZR 9) + 0)) /\
  last_error (floats script_theta)
  = Some (Finite (INR 8 * ((2 * PI - 0) / IZR 9) + 0)) /\
  float_ne (Finite (INR 0 * ((2 * PI - 0) / IZR 9) + 0))
           (Finite (INR 8 * ((2 * PI - 0) / IZR 9) + 0)) = true.
Proof.
  split; [reflexivity |]. split; [reflexivity |].
  apply float_ne_finite. pose proof PI_RGT_0. cbn [INR]. lra.
Qed.

(** The lines of the script: the nine angles with a row of nine values
    give a closed line of ten points. *)
Lemma script_line_closed (y : list float) (c : string) (ax : Axes)
      (y0 : float) :
  List.length y = 9 ->
  hd_error y = Some y0 ->
  exists l,
    RadarAxes.plot PolarAxes.plot (floats script_theta, y, c) ax
    = OK (PyNone, set_lines_field (lines ax ++ [l]) ax) /\
    List.length (xdata l) = 10 /\
    List.length (ydata l) = 10 /\
    first_point l = last_point l.
Proof.
  intros Hlen Hy0.
  destruct script_theta_ends as (Hhd & Hlast & Hne).
  eexists. split.
  - eapply (plot_closes_new_line (floats script_theta) y c ax);
      [now rewrite Hlen | exact Hhd | exact Hlast | exact Hne | exact Hy0].
  - cbn [xdata ydata]. split; [reflexivity |].
    split; [rewrite length_app, Hlen; reflexivity |].
    unfold first_point, last_point. cbn [xdata ydata].
    rewrite !last_error_snoc, (hd_error_snoc _ _ _ Hy0). reflexivity.
Qed.

(** ** The frame *)

Lemma gen_axes_patch_unknown (N : Z) (frame : string) :
  frame <> "circle" -> frame <> "polygon" ->
  RadarAxes._gen_axes_patch N frame = Raise (unknown_frame frame).
Proof.
  intros Hc Hp. unfold RadarAxes._gen_axes_patch.
  apply String.eqb_neq in Hc, Hp. now rewrite Hc, Hp.
Qed.

Lemma gen_axes_spines_unknown (N : Z) (frame : string) :
  frame <> "circle" -> frame <> "polygon" ->
  RadarAxes._gen_axes_spines N frame = Raise (unknown_frame frame).
Proof.
  intros Hc Hp. unfold RadarAxes._gen_axes_spines.
  apply String.eqb_neq in Hc, Hp. now rewrite Hc, Hp.
Qed.

Lemma append_empty_r (s : string) : (s ++ "")%string = s.
Proof. induction s as [| c s IH]; simpl; [reflexivity | now rewrite IH]. Qed.

Lemma linspace_nonneg (start stop : R) (N : Z) :
  (0 <= N)%Z -> exists th, np.linspace start stop N = OK th.
Proof.
  intros HN. unfold np.linspace.
  destruct (Z.ltb_spec N 0); [lia |].
  destruct (0 <? N)%Z; eexists; reflexivity.
Qed.

(** C3, as amended.  For every frame other than ['circle'] and ['polygon']
    (and a count that is not negative), [radar_factory] returns the angles
    and registers the projection; the invalid-value error, whose message
    names the frame, is raised by [_gen_axes_patch] and [_gen_axes_spines],
    hence when an axes object of the projection is created. *)
Theorem unknown_frame_fails_at_axes_creation
        (N : Z) (frame : string) (reg : Registry) :
  (0 <= N)%Z ->
  frame <> "circle" ->
  frame <> "polygon" ->
  (exists th reg',
      radar_factory N frame reg = OK (th, reg') /\
      get_projection_class reg' "radar"
      = OK (mkAxesClass "radar" N frame th)) /\
  RadarAxes._gen_axes_patch N frame = Raise (unknown_frame frame) /\
  RadarAxes._gen_axes_spines N frame = Raise (unknown_frame frame) /\
  (forall ax, RadarAxes.__init__ N frame ax = Raise (unknown_frame frame)) /\
  names_value ("Unknown value for 'frame': " ++ frame) frame.
Proof.
  intros HN Hc Hp.
  split.
  { destruct (linspace_nonneg 0 (2 * np.pi) N HN) as [th Hth].
    eexists; eexists. split; [exact (radar_factory_OK N frame reg th Hth) |].
    reflexivity. }
  split; [now apply gen_axes_patch_unknown |].
  split; [now apply gen_axes_spines_unknown |].
  split.
  { intros ax. unfold RadarAxes.__init__, PolarAxes.__init__, bind, lift.
    now rewrite gen_axes_spines_unknown. }
  exists "Unknown value for 'frame': ", "". now rewrite append_empty_r.
Qed.

Lemma unknown_frame_fails_at_axes_creation_witness :
  (exists th reg',
      radar_factory 9 "triangle" [] = OK (th, reg') /\
      get_projection_class reg' "radar"
      = OK (mkAxesClass "radar" 9 "triangle" th)) /\
  RadarAxes._gen_axes_patch 9 "triangle" = Raise (unknown_frame "triangle") /\
  RadarAxes._gen_axes_spines 9 "triangle" = Raise (unknown_frame "triangle") /\
  (forall ax, RadarAxes.__init__ 9 "triangle" ax
              = Raise (unknown_frame "triangle")) /\
  names_value "Unknown value for 'frame': triangle" "triangle".
Proof.
  apply (unknown_frame_fails_at_axes_creation 9 "triangle" []);
    [lia | discriminate | discriminate].
Defined.

(** C3, as the spec states it, fails: with the frame ['triangle'] the setup
    call returns. *)
Lemma radar_factory_accepts_triangle :
  "triangle" <> "circle" /\ "triangle" <> "polygon" /\
  ~ radar_factory_rejects_frame 9 "triangle" [].
Proof.
  split; [discriminate |]. split; [discriminate |].
  intros (msg & H & _).
  destruct (linspace_nonneg 0 (2 * np.pi) 9 ltac:(lia)) as [th Hth].
  rewrite (radar_factory_OK 9 "triangle" [] th Hth) in H. discriminate.
Qed.

Lemma unit_regular_polygon_OK (N : Z) :
  N <> 0%Z -> Path_unit_regular_polygon N = OK N.
Proof.
  intros H. unfold Path_unit_regular_polygon.
  destruct (Z.eqb_spec N 0); [contradiction | reflexivity].
Qed.

Lemma gen_axes_patch_polygon (N : Z) :
  N <> 0%Z ->
  RadarAxes._gen_axes_patch N "polygon"
  = OK (RegularPolygon (0.5, 0.5)%Q N 0.5%Q "k").
Proof.
  intros H. unfold RadarAxes._gen_axes_patch, RegularPolygon_new.
  cbn [String.eqb Ascii.eqb Bool.eqb]. now rewrite unit_regular_polygon_OK.
Qed.

Lemma gen_axes_spines_polygon (N : Z) :
  N <> 0%Z ->
  RadarAxes._gen_axes_spines N "polygon"
  = OK [("polar", PolygonSpine "circle" N 0.5%Q (0.5, 0.5)%Q)].
Proof.
  intros H. unfold RadarAxes._gen_axes_spines.
  cbn [String.eqb Ascii.eqb Bool.eqb]. now rewrite unit_regular_polygon_OK.
Qed.

(** C4.  For a count of at least one, the frame patch is a circle of centre
    (0.5, 0.5) and radius 0.5 when the frame is ['circle'], and a regular
    polygon of [N] sides, centre (0.5, 0.5) and radius 0.5 when it is
    ['polygon']; the constructor of the axes installs that patch. *)
Theorem gen_axes_patch_shape (N : Z) :
  (1 <= N)%Z ->
  RadarAxes._gen_axes_patch N "circle" = OK (Circle (0.5, 0.5)%Q 0.5%Q) /\
  RadarAxes._gen_axes_patch N "polygon"
  = OK (RegularPolygon (0.5, 0.5)%Q N 0.5%Q "k") /\
  (forall frame p,
      RadarAxes._gen_axes_patch N frame = OK p ->
      patch_center p = (0.5, 0.5)%Q /\
      (patch_radius p == 1 # 2)%Q /\
      (frame = "circle" /\ patch_sides p = None \/
       frame = "polygon" /\ patch_sides p = Some N)) /\
  (forall frame ax ax',
      RadarAxes.__init__ N frame ax = OK (tt, ax') ->
      exists p, RadarAxes._gen_axes_patch N frame = OK p /\ patch ax' = Some p).
Proof.
  intros HN.
  assert (HN0 : N <> 0%Z) by lia.
  split; [reflexivity |]. split; [now apply gen_axes_patch_polygon |].
  split.
  - intros frame p.
    destruct (String.eqb_spec frame "circle") as [-> | Hc].
    + intros H. cbn in H. injection H as <-. cbn. repeat split; auto.
    + destruct (String.eqb_spec frame "polygon") as [-> | Hp].
      * rewrite (gen_axes_patch_polygon N HN0).
        intros H. injection H as <-. cbn. repeat split; auto.
      * now rewrite gen_axes_patch_unknown.
  - intros frame ax ax'.
    unfold RadarAxes.__init__, PolarAxes.__init__, PolarAxes.set_theta_zero_location.
    unfold bind, lift, modify.
    destruct (RadarAxes._gen_axes_spines N frame) as [sp | e]; [| discriminate].
    destruct (RadarAxes._gen_axes_patch N frame) as [p | e]; [| discriminate].
    intros H. injection H as <-. exists p. split; reflexivity.
Qed.

(** The nine-sided frame of the script. *)
Lemma gen_axes_patch_shape_witness :
  RadarAxes._gen_axes_patch 9 "circle" = OK (Circle (0.5, 0.5)%Q 0.5%Q) /\
  RadarAxes._gen_axes_patch 9 "polygon"
  = OK (RegularPolygon (0.5, 0.5)%Q 9 0.5%Q "k") /\
  (forall frame p,
      RadarAxes._gen_axes_patch 9 frame = OK p ->
      patch_center p = (0.5, 0.5)%Q /\
      (patch_radius p == 1 # 2)%Q /\
      (frame = "circle" /\ patch_sides p = None \/
       frame = "polygon" /\ patch_sides p = Some 9%Z)) /\
  (forall frame ax ax',
      RadarAxes.__init__ 9 frame ax = OK (tt, ax') ->
      exists p, RadarAxes._gen_axes_patch 9 frame = OK p /\ patch ax' = Some p).
Proof.
  apply (gen_axes_patch_shape 9). lia.
Defined.

(** ** Axis labels *)

Section Labels.
Local Open Scope R_scope.

Lemma radar_factory_inv (N : Z) (frame : string) (reg reg' : Registry)
      (th : list R) :
  radar_factory N frame reg = OK (th, reg') ->
  np.linspace 0 (2 * np.pi) N = OK th.
Proof.
  unfold radar_factory, bind, lift, register_projection, modify, ret.
  destruct (np.linspace 0 (2 * np.pi) N) as [th0 | e]; [| discriminate].
  intros H. now injection H as <- _.
Qed.

Lemma angles_nth (N : Z) (th : list R) (i : nat) :
  np.linspace 0 (2 * np.pi) N = OK th ->
  (i < Z.to_nat N)%nat ->
  nth i th 0 = 2 * PI * INR i / IZR N.
Proof.
  intros H Hi.
  assert (HN : (1 <= N)%Z) by lia.
  rewrite (linspace_2pi N HN) in H. injection H as <-.
  unfold np.arange. rewrite nth_map_arange by assumption.
  assert (0 < IZR N) by (apply IZR_lt; lia).
  field. lra.
Qed.

Lemma degrees_nth (th : list R) (i : nat) :
  (i < List.length th)%nat ->
  nth i (np.degrees th) 0 = nth i th 0 * (180 / PI).
Proof.
  intros Hi. unfold np.degrees.
  rewrite (nth_indep _ 0 (0 * (180 / PI))) by now rewrite length_map.
  now rewrite (map_nth (fun a => a * (180 / PI))).
Qed.

Lemma set_thetagrids_OK (angles : list R) (labels : list string) (ax : Axes) :
  List.length labels = List.length angles ->
  PolarAxes.set_thetagrids angles labels ax
  = OK (tt, set_thetagrids_field (combine angles labels) ax).
Proof.
  intros H. unfold PolarAxes.set_thetagrids.
  destruct labels as [| lb labels].
  - destruct angles; [reflexivity | discriminate].
  - now rewrite H, Nat.eqb_refl.
Qed.

Lemma set_thetagrids_no_labels (angles : list R) (ax : Axes) :
  PolarAxes.set_thetagrids angles [] ax
  = OK (tt, set_thetagrids_field (map (fun a => (a, "")%string) angles) ax).
Proof. reflexivity. Qed.

Lemma set_thetagrids_Raise (angles : list R) (labels : list string) (ax : Axes) :
  labels <> [] ->
  List.length labels <> List.length angles ->
  exists msg, PolarAxes.set_thetagrids angles labels ax = Raise (ValueError msg).
Proof.
  intros Hne H. unfold PolarAxes.set_thetagrids.
  destruct labels as [| lb labels]; [contradiction |].
  apply Nat.eqb_neq in H. rewrite H. now eexists.
Qed.

(** C6, as amended.  With the angles of [radar_factory N], [set_varlabels]
    given [N] labels assigns the i-th label to the i-th angle (in degrees,
    [360·i/N]), one label per angle; given no label at all it returns and
    leaves every angle with an empty label; given any other number of
    labels it fails. *)
Theorem set_varlabels_assigns_labels
        (N : Z) (frame : string) (reg reg' : Registry) (th : list R)
        (labels : list string) (ax : Axes) :
  radar_factory N frame reg = OK (th, reg') ->
  (List.length labels = Z.to_nat N ->
   exists ax',
     RadarAxes.set_varlabels th labels ax = OK (tt, ax') /\
     List.length (thetagrids ax') = Z.to_nat N /\
     (forall i, (i < Z.to_nat N)%nat ->
                nth_error (thetagrids ax') i
                = Some (nth i th 0 * (180 / PI), nth i labels ""%string) /\
                nth i th 0 * (180 / PI) = 360 * INR i / IZR N)) /\
  (labels = [] ->
   exists ax',
     RadarAxes.set_varlabels th labels ax = OK (tt, ax') /\
     List.length (thetagrids ax') = Z.to_nat N /\
     (forall i, (i < Z.to_nat N)%nat ->
                nth_error (thetagrids ax') i
                = Some (nth i th 0 * (180 / PI), ""%string))) /\
  (labels <> [] ->
   List.length labels <> Z.to_nat N ->
   exists msg,
     RadarAxes.set_varlabels th labels ax = Raise (ValueError msg)).
Proof.
  intros Hrf. apply radar_factory_inv in Hrf.
  pose proof (linspace_length _ _ _ _ Hrf) as Hlen.
  assert (Hdeg : List.length (np.degrees th) = Z.to_nat N).
  { unfold np.degrees. now rewrite length_map. }
  split; [| split].
  - intros Hl. eexists. split.
    { unfold RadarAxes.set_varlabels. apply set_thetagrids_OK. congruence. }
    cbn [thetagrids set_thetagrids_field].
    split.
    { rewrite length_combine, Hdeg, Hl. apply Nat.min_id. }
    intros i Hi. split.
    + rewrite (nth_error_nth' _ (0, ""%string))
        by (rewrite length_combine, Hdeg, Hl, Nat.min_id; exact Hi).
      rewrite combine_nth by congruence.
      rewrite degrees_nth by congruence. reflexivity.
    + rewrite (angles_nth N th i Hrf Hi).
      assert (0 < IZR N) by (apply IZR_lt; lia).
      pose proof PI_RGT_0. field. split; lra.
  - intros ->. eexists. split.
    { unfold RadarAxes.set_varlabels. apply set_thetagrids_no_labels. }
    cbn [thetagrids set_thetagrids_field].
    split; [now rewrite length_map |].
    intros i Hi.
    rewrite nth_error_map, (nth_error_nth' _ 0) by congruence.
    cbn [option_map]. now rewrite degrees_nth by congruence.
  - intros Hne Hl. unfold RadarAxes.set_varlabels.
    apply set_thetagrids_Raise; [assumption | congruence].
Qed.

Lemma set_varlabels_assigns_labels_witness :
  exists th reg',
    radar_factory 9 "polygon" [] = OK (th, reg') /\
    exists ax',
      RadarAxes.set_varlabels th
        ["Kills"; "ACS"; "K-D Difference"; "Assists"; "KAST%"; "ADR"; "HS%";
         "First Kills"; "First Kill Difference"]%string blank_axes
      = OK (tt, ax') /\
      List.length (thetagrids ax') = Z.to_nat 9 /\
      (forall i, (i < Z.to_nat 9)%nat ->
                 nth_error (thetagrids ax') i
                 = Some (nth i th 0 * (180 / PI),
                         nth i ["Kills"; "ACS"; "K-D Difference"; "Assists";
                                "KAST%"; "ADR"; "HS%"; "First Kills";
                                "First Kill Difference"]%string ""%string) /\
                 nth i th 0 * (180 / PI) = 360 * INR i / IZR 9).
Proof.
  exists (map (fun yi => yi * ((2 * PI - 0) / IZR 9) + 0) (np.arange 9)).
  eexists. split; [reflexivity |].
  apply (proj1 (set_varlabels_assigns_labels 9 "polygon" [] _ _ _ blank_axes
                  eq_refl)).
  reflexivity.
Defined.

(** C6, as the spec states it, fails: on the nine angles of the script,
    [set_varlabels] given an empty list of labels returns. *)
Lemma set_varlabels_accepts_no_labels :
  radar_factory 9 "polygon" [] = OK (script_theta, [("radar", radar_class)]) /\
  ~ set_varlabels_rejects_mismatch script_theta [] blank_axes.
Proof.
  split; [reflexivity |].
  intros H. destruct H as [e He]; [discriminate |].
  unfold RadarAxes.set_varlabels in He.
  rewrite set_thetagrids_no_labels in He. discriminate.
Qed.

End Labels.

(** ** Gridlines *)

(** C7.  For a path whose interpolation step count is greater than 1, the
    radar transform interpolates the path with [num_vars] steps first and
    applies the polar transform to the vertices of the interpolated path;
    the result keeps the codes of the interpolated path and carries the
    step count 1, so that it is not interpolated (or turned into arcs)
    again. *)
Theorem gridlines_interpolated_then_transformed
        (num_vars : Z) (interpolated : Path -> Z -> Path)
        (transform : list (R * R) -> list (R * R)) (path : Path) :
  (_interpolation_steps path > 1)%Z ->
  let result :=
    RadarTransform.transform_path_non_affine num_vars interpolated transform path in
  result = Path_new (transform (vertices (interpolated path num_vars)))
                    (codes (interpolated path num_vars)) /\
  vertices result = transform (vertices (interpolated path num_vars)) /\
  codes result = codes (interpolated path num_vars) /\
  _interpolation_steps result = 1%Z.
Proof.
  intros Hsteps result. subst result.
  unfold RadarTransform.transform_path_non_affine.
  destruct (Z.gtb_spec (_interpolation_steps path) 1); [| lia].
  repeat split.
Qed.

(** A path with step count 1 goes through the polar transform as it is. *)
Lemma unit_step_paths_not_interpolated
      (num_vars : Z) (interpolated : Path -> Z -> Path)
      (transform : list (R * R) -> list (R * R)) (path : Path) :
  (_interpolation_steps path <= 1)%Z ->
  RadarTransform.transform_path_non_affine num_vars interpolated transform path
  = Path_new (transform (vertices path)) (codes path).
Proof.
  intros Hsteps. unfold RadarTransform.transform_path_non_affine.
  destruct (Z.gtb_spec (_interpolation_steps path) 1); [lia | reflexivity].
Qed.

Lemma gridlines_interpolated_then_transformed_witness :
  let result :=
    RadarTransform.transform_path_non_affine 9 Path_interpolated
      PolarTransform_transform (gridline 1) in
  result
  = Path_new (PolarTransform_transform
                (vertices (Path_interpolated (gridline 1) 9)))
             (codes (Path_interpolated (gridline 1) 9)) /\
  vertices result
  = PolarTransform_transform (vertices (Path_interpolated (gridline 1) 9)) /\
  codes result = codes (Path_interpolated (gridline 1) 9) /\
  _interpolation_steps result = 1%Z.
Proof.
  apply (gridlines_interpolated_then_transformed 9 Path_interpolated
           PolarTransform_transform (gridline 1)).
  cbn. lia.
Defined.

(** With the library's interpolation, the gridline at radius [r] becomes
    the path through the points at the [N] axis angles, back to the start:
    a polygon with its corners on the axes. *)
Lemma gridline_vertices_on_axes (N : Z) (r : R) (th : list R) :
  (2 <= N)%Z ->
  np.linspace 0 (2 * np.pi) N = OK th ->
  vertices (RadarTransform.transform_path_non_affine N Path_interpolated
              PolarTransform_transform (gridline r))
  = PolarTransform_transform (map (fun t => (t, r)) (th ++ [2 * PI]%R)).
Proof.
  intros HN Hth.
  rewrite (linspace_2pi N ltac:(lia)) in Hth. injection Hth as <-.
  unfold RadarTransform.transform_path_non_affine, gridline.
  cbn [_interpolation_steps Z.gtb Z.compare Pos.compare Pos.compare_cont].
  unfold Path_new, Path_interpolated. cbn [vertices].
  destruct (Z.eqb_spec N 1); [lia |].
  cbn [vertices Path_new simple_linear_interpolation].
  f_equal. rewrite map_app. cbn [map]. f_equal.
  unfold np.arange. rewrite !map_map. apply map_ext. intros j.
  assert (HNr : (0 < IZR N)%R) by (apply IZR_lt; lia).
  rewrite IZR_to_nat by lia. cbn [fst snd].
  f_equal; field; lra.
Qed.

(** ** The data table *)

(** C8.  [example_data] returns a list whose first element is a row of
    nine category labels, followed by four map entries; every map entry
    pairs a name with five player rows, and every player row holds nine
    values, each between 0 and 1. *)
Theorem example_data_shape :
  exists labels maps,
    example_data = Labels labels :: maps /\
    List.length labels = 9 /\
    List.length maps = 4 /\
    Forall map_entry maps.
Proof.
  eexists; eexists. split; [reflexivity |].
  split; [reflexivity |]. split; [reflexivity |].
  repeat (apply Forall_cons || apply Forall_nil);
    (eexists; eexists; split; [reflexivity |]; split; [reflexivity |]);
    repeat (apply Forall_cons || apply Forall_nil);
    (split; [reflexivity |]);
    repeat (apply Forall_cons || apply Forall_nil);
    (split; unfold Qle; simpl; lia).
Qed.

(** ** The run of the script *)

Lemma exec_cons (s : M World unit) (rest : list (M World unit)) (w w' : World) :
  s w = OK (tt, w') ->
  exec (s :: rest) w = (w' :: fst (exec rest w'), snd (exec rest w')).
Proof. intros H. cbn [exec]. now rewrite H. Qed.

Lemma stmt_theta_run : stmt_theta initial_world = OK (tt, world_after_theta).
Proof. reflexivity. Qed.

Lemma stmt_data_run : stmt_data world_after_theta = OK (tt, world_after_data).
Proof. reflexivity. Qed.

Lemma stmt_spoke_labels_run :
  stmt_spoke_labels world_after_data = OK (tt, world_after_spoke_labels).
Proof. reflexivity. Qed.

Lemma stmt_subplots_run :
  stmt_subplots world_after_spoke_labels = OK (tt, world_after_subplots).
Proof. reflexivity. Qed.

Lemma stmt_colors_run :
  stmt_colors world_after_subplots = OK (tt, world_after_colors).
Proof. reflexivity. Qed.

Lemma globals_kept_refl (w : World) : globals_kept w w.
Proof. repeat split. Qed.

Lemma globals_kept_trans (w1 w2 w3 : World) :
  globals_kept w1 w2 -> globals_kept w2 w3 -> globals_kept w1 w3.
Proof.
  unfold globals_kept.
  intros (A1 & A2 & A3 & A4 & A5 & A6) (B1 & B2 & B3 & B4 & B5 & B6).
  repeat split; congruence.
Qed.

Lemma globals_kept_axs_length (w w' : World) :
  globals_kept w w' -> List.length (axs w') = List.length (axs w).
Proof.
  intros (_ & _ & _ & _ & _ & H).
  apply (f_equal (@List.length _)) in H. now rewrite !length_map in H.
Qed.

Lemma map_fst_list_update {A B : Type} (l : list (A * B)) (i : nat) (a : A)
      (b b' : B) :
  nth_error l i = Some (a, b) ->
  map fst (list_update l i (a, b')) = map fst l.
Proof.
  revert i. induction l as [| [a0 b0] t IH]; intros [| i] H; simpl in *;
    try discriminate.
  - now injection H as -> _.
  - f_equal. now apply IH.
Qed.

Lemma for_each_inv {S A : Type} (P : S -> Prop) (body : A -> M S unit)
      (xs : list A) :
  (forall x s, In x xs -> P s -> exists s', body x s = OK (tt, s') /\ P s') ->
  forall s, P s -> exists s', for_each xs body s = OK (tt, s') /\ P s'.
Proof.
  induction xs as [| x xs IH]; intros Hbody s Hs.
  - now exists s.
  - destruct (Hbody x s (or_introl eq_refl) Hs) as (s1 & H1 & P1).
    destruct (IH (fun y t Hy => Hbody y t (or_intror Hy)) s1 P1)
      as (s2 & H2 & P2).
    exists s2. cbn [for_each]. now rewrite (bind_OK _ _ _ _ _ H1).
Qed.

Lemma load_OK {A : Type} (name : string) (field : World -> option A)
      (w : World) (v : A) :
  field w = Some v -> load name field w = OK (v, w).
Proof. intros H. unfold load, bind, get. now rewrite H. Qed.

Lemma on_axes_total {A : Type} (i : nat) (m : AxesClass -> M Axes A)
      (w : World) :
  i < List.length (axs w) ->
  (forall cls ax, nth_error (axs w) i = Some (cls, ax) ->
                  exists a ax', m cls ax = OK (a, ax')) ->
  exists a w', on_axes i m w = OK (a, w') /\ globals_kept w w'.
Proof.
  intros Hi Hm. unfold on_axes.
  destruct (nth_error (axs w) i) as [[cls ax] |] eqn:E.
  - destruct (Hm cls ax eq_refl) as (a & ax' & Ha). rewrite Ha.
    eexists; eexists. split; [reflexivity |].
    repeat split. cbn. now apply map_fst_list_update with (b := ax).
  - apply nth_error_None in E. lia.
Qed.

Lemma ax_plot_total (x y : list float) (c : string) (cls : AxesClass)
      (ax : Axes) :
  List.length x = List.length y ->
  x <> [] ->
  exists r ax', ax_plot x y c cls ax = OK (r, ax').
Proof.
  intros Hlen Hx. exists PyNone. unfold ax_plot.
  apply plot_total with
    (refs := [List.length (lines ax)])
    (ax1 := set_lines_field (lines ax ++ [mkLine2D x y c]) ax).
  - unfold PolarAxes.plot. now rewrite Hlen, Nat.eqb_refl.
  - constructor; [| constructor].
    exists (mkLine2D x y c). cbn [lines set_lines_field xdata ydata].
    split.
    + rewrite nth_error_app2 by lia. now rewrite Nat.sub_diag.
    + split; [assumption |].
      intros ->. destruct x; [congruence | discriminate].
Qed.

Lemma ax_fill_total (x y : list float) (fc : string) (a : Q) (lb : string)
      (cls : AxesClass) (ax : Axes) :
  exists u ax', ax_fill x y fc a lb cls ax = OK (u, ax').
Proof. eexists; eexists; reflexivity. Qed.

Lemma ax_set_varlabels_total (ls : list string) (cls : AxesClass) (ax : Axes) :
  List.length ls = List.length (cls_theta cls) ->
  exists u ax', ax_set_varlabels ls cls ax = OK (u, ax').
Proof.
  intros H. eexists; eexists.
  unfold ax_set_varlabels, RadarAxes.set_varlabels.
  apply set_thetagrids_OK. unfold np.degrees. now rewrite length_map.
Qed.

Lemma plot_case_total (i : nat) (title : string) (case_data : list (list Q))
      (w : World) (th : list R) (cs ls : list string) :
  i < List.length (axs w) ->
  theta w = Some th ->
  colors w = Some cs ->
  spoke_labels w = Some (Labels ls) ->
  th <> [] ->
  Forall (fun d => List.length d = List.length th) case_data ->
  Forall (fun cls => List.length ls = List.length (cls_theta cls))
         (map fst (axs w)) ->
  exists w',
    plot_case i (MapEntry title case_data) w = OK (tt, w') /\
    globals_kept w w'.
Proof.
  intros Hi Hth Hcs Hsl Hne Hrows Hcls. cbn [plot_case].
  destruct (on_axes_total i (fun _ => PolarAxes.set_rgrids [0.2; 0.4; 0.6; 0.8]%Q) w Hi)
    as ([] & w1 & H1 & K1); [intros; eexists; eexists; reflexivity |].
  rewrite (bind_OK _ _ _ _ _ H1).
  assert (Hi1 : i < List.length (axs w1))
    by now rewrite (globals_kept_axs_length _ _ K1).
  destruct (on_axes_total i (fun _ => PolarAxes.set_title title) w1 Hi1)
    as ([] & w2 & H2 & K2); [intros; eexists; eexists; reflexivity |].
  rewrite (bind_OK _ _ _ _ _ H2).
  pose proof (globals_kept_trans _ _ _ K1 K2) as K12.
  assert (Hth2 : theta w2 = Some th) by (destruct K12 as (_ & E & _); congruence).
  assert (Hcs2 : colors w2 = Some cs)
    by (destruct K12 as (_ & _ & _ & _ & E & _); congruence).
  rewrite (bind_OK _ _ _ _ _ (load_OK "theta" theta w2 th Hth2)).
  rewrite (bind_OK _ _ _ _ _ (load_OK "colors" colors w2 cs Hcs2)).
  destruct (for_each_inv (fun s => globals_kept w2 s)
              (fun dc : list Q * string =>
                 let '(d, color) := dc in
                 on_axes i (ax_plot (floats th) (floats (map Q2R d)) color) ;;;
                 on_axes i (ax_fill (floats th) (floats (map Q2R d)) color
                                    0.25%Q "_nolegend_"))
              (combine case_data cs)) with (s := w2)
    as (w3 & H3 & K3).
  { intros [d color] s Hin Ks.
    assert (Hd : List.length d = List.length th).
    { apply in_combine_l in Hin. rewrite Forall_forall in Hrows. auto. }
    assert (His : i < List.length (axs s)).
    { rewrite (globals_kept_axs_length _ _ Ks),
        (globals_kept_axs_length _ _ K12). exact Hi. }
    destruct (on_axes_total i
                (ax_plot (floats th) (floats (map Q2R d)) color) s His)
      as (r & s1 & Hp & Kp).
    { intros cls ax _. apply ax_plot_total.
      - unfold floats. rewrite !length_map. congruence.
      - unfold floats. intros E. apply map_eq_nil in E. contradiction. }
    assert (His1 : i < List.length (axs s1))
      by now rewrite (globals_kept_axs_length _ _ Kp).
    destruct (on_axes_total i
                (ax_fill (floats th) (floats (map Q2R d)) color 0.25%Q
                         "_nolegend_") s1 His1)
      as ([] & s2 & Hf & Kf).
    { intros cls ax _. apply ax_fill_total. }
    exists s2. split.
    - now rewrite (bind_OK _ _ _ _ _ Hp).
    - eauto using globals_kept_trans. }
  { apply globals_kept_refl. }
  rewrite (bind_OK _ _ _ _ _ H3).
  pose proof (globals_kept_trans _ _ _ K12 K3) as K.
  assert (Hsl3 : spoke_labels w3 = Some (Labels ls))
    by (destruct K as (_ & _ & _ & E & _); congruence).
  rewrite (bind_OK _ _ _ _ _ (load_OK "spoke_labels" spoke_labels w3 _ Hsl3)).
  assert (Hi3 : i < List.length (axs w3))
    by now rewrite (globals_kept_axs_length _ _ K).
  destruct (on_axes_total i (ax_set_varlabels ls) w3 Hi3)
    as ([] & w4 & H4 & K4).
  { intros cls ax Hnth. apply ax_set_varlabels_total.
    rewrite Forall_forall in Hcls. apply Hcls.
    destruct K as (_ & _ & _ & _ & _ & <-).
    apply nth_error_In in Hnth. now apply (in_map fst) in Hnth. }
  exists w4. split; [exact H4 | eauto using globals_kept_trans].
Qed.

Lemma stmt_loop_run :
  exists w',
    stmt_loop world_after_colors = OK (tt, w') /\
    globals_kept world_after_colors w'.
Proof.
  unfold stmt_loop.
  rewrite (bind_OK _ _ _ _ _
             (load_OK "data" data world_after_colors map_entries eq_refl)).
  unfold bind at 1. cbn [get].
  apply for_each_inv; [| apply globals_kept_refl].
  intros [i entry] s Hin Ks.
  pose proof Ks as (_ & Hth & _ & Hsl & Hcs & Haxs).
  assert (Hcase : i < 4 /\ exists title case_data,
                    entry = MapEntry title case_data /\
                    Forall (fun d => List.length d = List.length script_theta)
                           case_data).
  { cbn in Hin.
    repeat (destruct Hin as [Hin | Hin];
            [injection Hin as <- <-; split; [lia |];
             eexists; eexists; split; [reflexivity |];
             repeat constructor |]).
    contradiction. }
  destruct Hcase as (Hi & title & case_data & -> & Hrows).
  cbn [fst snd].
  destruct (plot_case_total i title case_data s script_theta
              ["b"; "r"; "g"; "m"; "y"]
              ["Kills"; "ACS"; "K-D Difference"; "Assists"; "KAST%"; "ADR";
               "HS%"; "First Kills"; "First Kill Difference"])
    as (s' & Hs' & Ks').
  - now rewrite (globals_kept_axs_length _ _ Ks).
  - now rewrite Hth.
  - now rewrite Hcs.
  - now rewrite Hsl.
  - discriminate.
  - exact Hrows.
  - rewrite Haxs. cbn. repeat constructor.
  - exists s'. split; [exact Hs' | eauto using globals_kept_trans].
Qed.

Lemma stmt_legend_run (w : World) :
  0 < List.length (axs w) ->
  exists w', stmt_legend w = OK (tt, w') /\ data w' = data w /\
             spoke_labels w' = spoke_labels w.
Proof.
  intros Hlen. unfold stmt_legend.
  set (ls := ["Shao"; "Zyppan"; "Jinggg"; "SUGETSU"; "ANGE1"]).
  unfold bind at 1. cbn [modify].
  rewrite (bind_OK _ _ _ _ _
             (load_OK "labels" labels (set_labels ls w) ls eq_refl)).
  destruct (on_axes_total 0 (fun _ => PolarAxes.legend ls) (set_labels ls w) Hlen)
    as ([] & w' & H & K); [intros; eexists; eexists; reflexivity |].
  exists w'. split; [exact H |].
  destruct K as (_ & _ & Hd & Hs & _). now rewrite Hd, Hs.
Qed.

(** C5, as amended.  The script runs to its end without an exception.  The
    list that [example_data] built is mutated once, by [data.pop(0)] in the
    third statement, which removes the label row from it; from then on, in
    every world the script reaches, [data] holds the four map entries and
    [spoke_labels] the label row, both as [example_data] built them. *)
Theorem table_mutated_only_by_pop :
  exists tr,
    exec main initial_world = (tr, None) /\
    List.length tr = 9 /\
    example_data = label_row :: map_entries /\
    (forall w, nth_error tr 1 = Some w -> data w = Some example_data) /\
    (forall i w,
        2 <= i ->
        nth_error tr i = Some w ->
        data w = Some map_entries /\ spoke_labels w = Some label_row).
Proof.
  destruct stmt_loop_run as (w6 & H6 & K6).
  assert (Hlen6 : 0 < List.length (axs w6)).
  { rewrite (globals_kept_axs_length _ _ K6). cbn. lia. }
  destruct (stmt_legend_run w6 Hlen6) as (w7 & H7 & Hd7 & Hs7).
  destruct K6 as (_ & _ & Hd6 & Hs6 & _).
  set (w8 := add_fig_text
               "Top 5 players across the last 4 maps of Masters Copenhagen 2022"
               w7).
  exists [world_after_theta; world_after_data; world_after_spoke_labels;
          world_after_subplots; world_after_colors; w6; w7; w8; set_shown w8].
  split.
  { unfold main.
    rewrite (exec_cons _ _ _ _ stmt_theta_run).
    rewrite (exec_cons _ _ _ _ stmt_data_run).
    rewrite (exec_cons _ _ _ _ stmt_spoke_labels_run).
    rewrite (exec_cons _ _ _ _ stmt_subplots_run).
    rewrite (exec_cons _ _ _ _ stmt_colors_run).
    rewrite (exec_cons _ _ _ _ H6).
    rewrite (exec_cons _ _ _ _ H7).
    reflexivity. }
  split; [reflexivity |]. split; [reflexivity |].
  split.
  { intros w H. cbn in H. now injection H as <-. }
  intros i w Hi H.
  do 2 (destruct i as [| i]; [lia |]).
  cbn [nth_error] in H.
  repeat (destruct i as [| i];
          [injection H as <-; cbn [data spoke_labels set_shown add_fig_text w8];
           rewrite ?Hd7, ?Hs7, ?Hd6, ?Hs6; split; reflexivity |];
          cbn [nth_error] in H).
  destruct i; discriminate.
Qed.

(** C5, as the spec states it, fails: after [spoke_labels = data.pop(0)] the
    list bound to [data] has lost its first element. *)
Lemma table_mutated_by_pop : ~ table_never_mutated.
Proof.
  intros H.
  specialize (H 2 world_after_spoke_labels ltac:(lia)).
  unfold main in H.
  rewrite (exec_cons _ _ _ _ stmt_theta_run) in H.
  rewrite (exec_cons _ _ _ _ stmt_data_run) in H.
  rewrite (exec_cons _ _ _ _ stmt_spoke_labels_run) in H.
  specialize (H eq_refl). cbn in H. discriminate.
Qed.

(** * Further properties of the code *)

(** ** [_close_line], its failures and what it keeps *)

Lemma index_empty {A : Type} (i : Z) :
  np.index (@nil A) i = Raise out_of_bounds.
Proof.
  unfold np.index. cbn [List.length Z.of_nat].
  destruct (i <? 0)%Z eqn:E.
  - rewrite Z.add_0_r, E. reflexivity.
  - apply Z.ltb_ge in E. apply Z.leb_le in E. rewrite E, orb_true_r.
    reflexivity.
Qed.

Lemma index_first_inv {A : Type} (x : list A) (a : A) :
  np.index x 0 = OK a -> hd_error x = Some a.
Proof.
  destruct x as [| h t].
  - rewrite index_empty. discriminate.
  - rewrite (index_first (h :: t) h eq_refl). intros H. now injection H as <-.
Qed.

Lemma index_last_inv {A : Type} (x : list A) (a : A) :
  np.index x (-1) = OK a -> last_error x = Some a.
Proof.
  destruct x as [| h t].
  - rewrite index_empty. discriminate.
  - destruct (last_error_some (h :: t)) as [b Hb]; [discriminate |].
    rewrite (index_last _ _ Hb). intros H. now injection H as <-.
Qed.

Lemma close_line_dangling (ax : Axes) (line : lineref) :
  nth_error (lines ax) line = None ->
  RadarAxes._close_line line ax = Raise (NameError "no such line").
Proof.
  intros H. unfold RadarAxes._close_line, RadarAxes.get_data, bind, get.
  now rewrite H.
Qed.

Lemma close_line_no_x (ax : Axes) (line : lineref) (l : Line2D) :
  nth_error (lines ax) line = Some l ->
  xdata l = [] ->
  RadarAxes._close_line line ax = Raise out_of_bounds.
Proof.
  intros Hl Hx. unfold RadarAxes._close_line.
  rewrite (bind_OK _ _ _ _ _ (get_data_OK ax line l Hl)).
  unfold bind, lift. now rewrite Hx, index_empty.
Qed.

Lemma close_line_no_y (ax : Axes) (line : lineref) (l : Line2D)
      (x0 xlast : float) :
  nth_error (lines ax) line = Some l ->
  hd_error (xdata l) = Some x0 ->
  last_error (xdata l) = Some xlast ->
  float_ne x0 xlast = true ->
  ydata l = [] ->
  RadarAxes._close_line line ax = Raise out_of_bounds.
Proof.
  intros Hl Hx0 Hxl Hne Hy. unfold RadarAxes._close_line.
  rewrite (bind_OK _ _ _ _ _ (get_data_OK ax line l Hl)).
  unfold bind, lift.
  rewrite (index_first _ _ Hx0), (index_last _ _ Hxl), Hne.
  now rewrite Hy, index_empty.
Qed.

(** Every way in which [_close_line] can return. *)
Lemma close_line_inv (ax : Axes) (line : lineref) (u : unit) (ax' : Axes) :
  RadarAxes._close_line line ax = OK (u, ax') ->
  exists l x0 xlast,
    nth_error (lines ax) line = Some l /\
    hd_error (xdata l) = Some x0 /\
    last_error (xdata l) = Some xlast /\
    ((float_ne x0 xlast = false /\ ax' = ax) \/
     (float_ne x0 xlast = true /\
      exists y0,
        hd_error (ydata l) = Some y0 /\
        ax' = set_lines_field
                (list_update (lines ax) line
                   (mkLine2D (xdata l ++ [x0]) (ydata l ++ [y0]) (color l)))
                ax)).
Proof.
  intros H.
  destruct (nth_error (lines ax) line) as [l |] eqn:Hl;
    [| rewrite (close_line_dangling ax line Hl) in H; discriminate].
  destruct (xdata l) as [| xh xt] eqn:Hx;
    [rewrite (close_line_no_x ax line l Hl Hx) in H; discriminate |].
  assert (Hne : xdata l <> []) by (rewrite Hx; discriminate).
  destruct (hd_error_nonempty _ Hne) as [x0 Hx0].
  destruct (last_error_some _ Hne) as [xl Hxl].
  exists l, x0, xl. repeat split; try assumption.
  destruct (float_ne x0 xl) eqn:E.
  2:{ left. split; [reflexivity |].
      rewrite (close_line_same_angle ax line l x0 xl Hl Hx0 Hxl E) in H.
      now injection H as <-. }
  - right. split; [reflexivity |].
    destruct (ydata l) as [| yh yt] eqn:Hy;
      [rewrite (close_line_no_y ax line l x0 xl Hl Hx0 Hxl E Hy) in H;
       discriminate |].
    exists yh. split; [reflexivity |].
    rewrite (close_line_open ax line l x0 xl yh Hl Hx0 Hxl E) in H
      by now rewrite Hy.
    rewrite Hy in H. now injection H as <-.
Qed.

Lemma list_update_length {A : Type} (l : list A) (i : nat) (v : A) :
  List.length (list_update l i v) = List.length l.
Proof.
  revert i. induction l as [| h t IH]; intros [| i]; simpl; auto.
Qed.

Lemma same_but_lines_refl (ax : Axes) : same_but_lines ax ax.
Proof. unfold same_but_lines. now destruct ax. Qed.

Lemma same_but_lines_trans (a b c : Axes) :
  same_but_lines a b -> same_but_lines b c -> same_but_lines a c.
Proof.
  unfold same_but_lines. destruct a, b, c. cbn. intros H1 H2.
  injection H1 as -> -> -> -> -> -> -> ->.
  injection H2 as -> -> -> -> -> -> -> ->.
  reflexivity.
Qed.

Lemma same_but_lines_set (ls : list Line2D) (ax : Axes) :
  same_but_lines ax (set_lines_field ls ax).
Proof. unfold same_but_lines. now destruct ax. Qed.

(** What [_close_line] keeps, for the induction over the lines of [plot]. *)
Lemma close_line_frame (ax : Axes) (line : lineref) (u : unit) (ax' : Axes) :
  RadarAxes._close_line line ax = OK (u, ax') ->
  same_but_lines ax ax' /\
  List.length (lines ax') = List.length (lines ax) /\
  (forall j, j <> line -> nth_error (lines ax') j = nth_error (lines ax) j).
Proof.
  intros H.
  destruct (close_line_inv ax line u ax' H)
    as (l & x0 & xl & Hl & Hx0 & Hxl & [[_ ->] | (_ & y0 & _ & ->)]).
  - split; [apply same_but_lines_refl | split; [reflexivity | reflexivity]].
  - split; [apply same_but_lines_set |].
    cbn [lines set_lines_field].
    split; [apply list_update_length |].
    intros j Hj. apply nth_error_list_update_neq. congruence.
Qed.

(** X1.  For a line whose first angle is a number, closing is idempotent:
    once [_close_line] has returned, closing the same line again changes
    nothing, so the first point is not appended twice.  When the first
    angle is NaN, [x[0] != x[-1]] holds at every call and each call appends
    the first point again. *)
Theorem close_line_idempotent (ax : Axes) (line : lineref) (l : Line2D)
        (x0 : float) (u : unit) (ax' : Axes) :
  nth_error (lines ax) line = Some l ->
  hd_error (xdata l) = Some x0 ->
  RadarAxes._close_line line ax = OK (u, ax') ->
  (x0 <> NaN -> RadarAxes._close_line line ax' = OK (tt, ax')) /\
  (x0 = NaN ->
   exists l' y0,
     nth_error (lines ax') line = Some l' /\
     hd_error (ydata l') = Some y0 /\
     RadarAxes._close_line line ax'
     = OK (tt, set_lines_field
                 (list_update (lines ax') line
                    (mkLine2D (xdata l' ++ [NaN]) (ydata l' ++ [y0])
                              (color l')))
                 ax')).
Proof.
  intros Hl Hx0 H.
  destruct (close_line_inv ax line u ax' H)
    as (l0 & x0' & xl & Hl0 & Hx0' & Hxl & Hcases).
  assert (l0 = l) as -> by congruence.
  assert (x0' = x0) as -> by congruence.
  destruct Hcases as [[He ->] | (Hne & y0 & Hy0 & ->)].
  - split.
    + intros _. exact (close_line_same_angle ax line l x0 xl Hl Hx0 Hxl He).
    + intros ->. discriminate He.
  - assert (Hl' : nth_error
                    (lines (set_lines_field
                              (list_update (lines ax) line
                                 (mkLine2D (xdata l ++ [x0]) (ydata l ++ [y0])
                                           (color l))) ax)) line
                  = Some (mkLine2D (xdata l ++ [x0]) (ydata l ++ [y0]) (color l))).
    { cbn [lines set_lines_field]. apply nth_error_list_update_eq.
      apply nth_error_Some. congruence. }
    split.
    + intros Hfin. destruct x0 as [r |]; [| contradiction].
      apply (close_line_same_angle _ line _ (Finite r) (Finite r) Hl').
      * cbn [xdata]. now apply hd_error_snoc.
      * cbn [xdata]. apply last_error_snoc.
      * apply float_ne_same.
    + intros ->. eexists; exists y0. split; [exact Hl' |].
      cbn [ydata]. split; [now apply hd_error_snoc |].
      apply (close_line_open _ line _ NaN NaN y0 Hl').
      * cbn [xdata]. now apply hd_error_snoc.
      * cbn [xdata]. apply last_error_snoc.
      * reflexivity.
      * cbn [ydata]. now apply hd_error_snoc.
Qed.

(** Closing the line through (0, 1), (1, 2) and (2, 3) twice is closing it
    once; closing the line through (NaN, 1) and (1, 2) twice appends the
    point (NaN, 1) twice. *)
Lemma close_line_idempotent_witness :
  (exists ax',
      RadarAxes._close_line 0 axes_with_three_points = OK (tt, ax') /\
      RadarAxes._close_line 0 ax' = OK (tt, ax')) /\
  (exists ax' ax'',
      RadarAxes._close_line 0 axes_with_nan_line = OK (tt, ax') /\
      RadarAxes._close_line 0 ax' = OK (tt, ax'') /\
      lines ax'' = [mkLine2D [NaN; Finite 1; NaN; NaN]
                             (floats [1; 2; 1; 1]%R) "b"]).
Proof.
  split.
  - assert (H : RadarAxes._close_line 0 axes_with_three_points
                = OK (tt, set_lines_field
                            [mkLine2D (floats [0; 1; 2]%R ++ [Finite 0])
                                      (floats [1; 2; 3]%R ++ [Finite 1]) "b"]
                            blank_axes)).
    { apply (close_line_open axes_with_three_points 0
               (mkLine2D (floats [0; 1; 2]%R) (floats [1; 2; 3]%R) "b")
               (Finite 0) (Finite 2) (Finite 1));
        [reflexivity | reflexivity | reflexivity
        | apply float_ne_finite; lra | reflexivity]. }
    eexists. split; [exact H |].
    apply (proj1 (close_line_idempotent axes_with_three_points 0 _ (Finite 0)
                    tt _ eq_refl eq_refl H)).
    discriminate.
  - assert (H : RadarAxes._close_line 0 axes_with_nan_line
                = OK (tt, set_lines_field
                            [mkLine2D ([NaN; Finite 1] ++ [NaN])
                                      (floats [1; 2]%R ++ [Finite 1]) "b"]
                            blank_axes)).
    { apply (close_line_open axes_with_nan_line 0
               (mkLine2D [NaN; Finite 1] (floats [1; 2]%R) "b")
               NaN (Finite 1) (Finite 1)); reflexivity. }
    destruct (proj2 (close_line_idempotent axes_with_nan_line 0 _ NaN
                       tt _ eq_refl eq_refl H) eq_refl)
      as (l' & y0 & Hl' & Hy0 & Hc).
    cbn in Hl'. injection Hl' as <-. cbn in Hy0. injection Hy0 as <-.
    eexists; eexists. split; [exact H |]. split; [exact Hc |].
    reflexivity.
Defined.

(** X2.  A line without points cannot be closed: [x[0]] raises
    [IndexError]. *)
Theorem close_line_empty_line_raises (ax : Axes) (line : lineref) (l : Line2D) :
  nth_error (lines ax) line = Some l ->
  xdata l = [] ->
  RadarAxes._close_line line ax = Raise out_of_bounds.
Proof.
  intros Hl Hx. unfold RadarAxes._close_line.
  rewrite (bind_OK _ _ _ _ _ (get_data_OK ax line l Hl)).
  unfold bind, lift. rewrite Hx. now rewrite index_empty.
Qed.

Lemma close_line_empty_line_raises_witness :
  RadarAxes._close_line 0 (set_lines_field [mkLine2D [] [] "b"] blank_axes)
  = Raise out_of_bounds.
Proof.
  apply (close_line_empty_line_raises _ 0 (mkLine2D [] [] "b"));
    reflexivity.
Defined.

(** X3.  Plotting empty data raises [IndexError]: the parent's [plot]
    accepts the empty arrays and creates a line, and closing that line
    fails on [x[0]]. *)
Theorem plot_empty_data_raises (c : string) (ax : Axes) :
  RadarAxes.plot PolarAxes.plot ([], [], c) ax = Raise out_of_bounds.
Proof.
  unfold RadarAxes.plot.
  assert (Hsuper : PolarAxes.plot ([], [], c) ax
                   = OK ([List.length (lines ax)],
                         set_lines_field (lines ax ++ [mkLine2D [] [] c]) ax))
    by reflexivity.
  rewrite (bind_OK _ _ _ _ _ Hsuper). cbn [for_each].
  apply bind_Raise. apply bind_Raise.
  apply (close_line_no_x _ _ (mkLine2D [] [] c)); [| reflexivity].
  cbn [lines set_lines_field]. rewrite nth_error_app2 by lia.
  now rewrite Nat.sub_diag.
Qed.

(** X4.  [_close_line] touches one line and nothing else: the other fields
    of the axes, the number of lines and every other line are kept; the
    line keeps its colour, grows by at most one point, and its [x] and [y]
    arrays stay of equal length if they were. *)
Theorem close_line_keeps (ax : Axes) (line : lineref) (u : unit) (ax' : Axes) :
  RadarAxes._close_line line ax = OK (u, ax') ->
  same_but_lines ax ax' /\
  List.length (lines ax') = List.length (lines ax) /\
  (forall j, j <> line -> nth_error (lines ax') j = nth_error (lines ax) j) /\
  exists l l',
    nth_error (lines ax) line = Some l /\
    nth_error (lines ax') line = Some l' /\
    color l' = color l /\
    List.length (xdata l') <= S (List.length (xdata l)) /\
    (List.length (xdata l) = List.length (ydata l) ->
     List.length (xdata l') = List.length (ydata l')).
Proof.
  intros H.
  destruct (close_line_frame ax line u ax' H) as (F1 & F2 & F3).
  split; [exact F1 |]. split; [exact F2 |]. split; [exact F3 |].
  destruct (close_line_inv ax line u ax' H)
    as (l & x0 & xl & Hl & Hx0 & Hxl & [[_ ->] | (_ & y0 & _ & ->)]).
  - exists l, l. repeat split; auto.
  - exists l, (mkLine2D (xdata l ++ [x0]) (ydata l ++ [y0]) (color l)).
    split; [exact Hl |].
    split.
    { cbn [lines set_lines_field]. apply nth_error_list_update_eq.
      apply nth_error_Some. congruence. }
    cbn [xdata ydata color]. rewrite !length_app. cbn [List.length].
    repeat split; lia.
Qed.

Lemma close_line_keeps_witness :
  exists ax',
    RadarAxes._close_line 0 axes_with_three_points = OK (tt, ax') /\
    same_but_lines axes_with_three_points ax' /\
    List.length (lines ax') = List.length (lines axes_with_three_points) /\
    (forall j, j <> 0 ->
               nth_error (lines ax') j
               = nth_error (lines axes_with_three_points) j) /\
    exists l l',
      nth_error (lines axes_with_three_points) 0 = Some l /\
      nth_error (lines ax') 0 = Some l' /\
      color l' = color l /\
      List.length (xdata l') <= S (List.length (xdata l)) /\
      (List.length (xdata l) = List.length (ydata l) ->
       List.length (xdata l') = List.length (ydata l')).
Proof.
  assert (H : RadarAxes._close_line 0 axes_with_three_points
              = OK (tt, set_lines_field
                          [mkLine2D (floats [0; 1; 2]%R ++ [Finite 0])
                                    (floats [1; 2; 3]%R ++ [Finite 1]) "b"]
                          blank_axes)).
  { apply (close_line_open axes_with_three_points 0
             (mkLine2D (floats [0; 1; 2]%R) (floats [1; 2; 3]%R) "b") (Finite 0) (Finite 2) (Finite 1));
      [reflexivity | reflexivity | reflexivity
      | apply float_ne_finite; lra | reflexivity]. }
  eexists. split; [exact H |].
  exact (close_line_keeps _ _ _ _ H).
Defined.

(** ** [plot], what it keeps and what it adds *)

Lemma for_each_close_line_frame (refs : list lineref) :
  forall ax u ax',
    for_each refs RadarAxes._close_line ax = OK (u, ax') ->
    same_but_lines ax ax' /\
    List.length (lines ax') = List.length (lines ax) /\
    (forall j, ~ In j refs -> nth_error (lines ax') j = nth_error (lines ax) j).
Proof.
  induction refs as [| r refs IH]; intros ax u ax' H.
  - cbn in H. injection H as _ <-.
    split; [apply same_but_lines_refl | split; reflexivity].
  - cbn [for_each] in H. apply bind_inv in H as (u1 & ax1 & Hc & Hrest).
    destruct (close_line_frame ax r u1 ax1 Hc) as (F1 & F2 & F3).
    destruct (IH ax1 u ax' Hrest) as (G1 & G2 & G3).
    split; [eapply same_but_lines_trans; eassumption |].
    split; [congruence |].
    intros j Hj. rewrite G3 by (intros Hin; apply Hj; now right).
    apply F3. intros ->. apply Hj. now left.
Qed.

(** X5.  [RadarAxes.plot] adds nothing of its own to what the parent's
    [plot] did: it leaves the number of lines, every line that the parent
    did not return and all other fields of the axes as the parent's [plot]
    left them. *)
Theorem plot_keeps {Args : Type} (super_plot : Args -> M Axes (list lineref))
        (args : Args) (ax : Axes) (r : pyret) (ax' : Axes) :
  RadarAxes.plot super_plot args ax = OK (r, ax') ->
  exists refs ax1,
    super_plot args ax = OK (refs, ax1) /\
    same_but_lines ax1 ax' /\
    List.length (lines ax') = List.length (lines ax1) /\
    (forall j, ~ In j refs -> nth_error (lines ax') j = nth_error (lines ax1) j).
Proof.
  unfold RadarAxes.plot. intros H.
  apply bind_inv in H as (refs & ax1 & Hsuper & H).
  apply bind_inv in H as (u & ax2 & Hfe & H).
  unfold ret in H. injection H as _ <-.
  exists refs, ax1. split; [exact Hsuper |].
  exact (for_each_close_line_frame refs ax1 u ax2 Hfe).
Qed.

Lemma plot_keeps_new_line (x y : list float) (c : string) (ax : Axes)
      (x0 xlast : float) :
  List.length x = List.length y ->
  hd_error x = Some x0 ->
  last_error x = Some xlast ->
  float_ne x0 xlast = false ->
  RadarAxes.plot PolarAxes.plot (x, y, c) ax
  = OK (PyNone, set_lines_field (lines ax ++ [mkLine2D x y c]) ax).
Proof.
  intros Hlen Hx0 Hxl He.
  set (ax1 := set_lines_field (lines ax ++ [mkLine2D x y c]) ax).
  assert (Hsuper : PolarAxes.plot (x, y, c) ax
                   = OK ([List.length (lines ax)], ax1)).
  { unfold PolarAxes.plot. now rewrite Hlen, Nat.eqb_refl. }
  assert (Hnth : nth_error (lines ax1) (List.length (lines ax))
                 = Some (mkLine2D x y c)).
  { cbn [ax1 lines set_lines_field]. rewrite nth_error_app2 by lia.
    now rewrite Nat.sub_diag. }
  unfold RadarAxes.plot. rewrite (bind_OK _ _ _ _ _ Hsuper).
  cbn [for_each].
  rewrite (bind_OK _ _ _ _ _
             (bind_OK _ _ _ _ _
                (close_line_same_angle ax1 _ _ x0 xlast Hnth Hx0 Hxl He))).
  reflexivity.
Qed.

Lemma plot_keeps_witness :
  exists ax' refs ax1,
    RadarAxes.plot PolarAxes.plot
      (floats [0; 1; 2]%R, floats [1; 2; 3]%R, "b") blank_axes
    = OK (PyNone, ax') /\
    PolarAxes.plot (floats [0; 1; 2]%R, floats [1; 2; 3]%R, "b") blank_axes
    = OK (refs, ax1) /\
    same_but_lines ax1 ax' /\
    List.length (lines ax') = List.length (lines ax1) /\
    (forall j, ~ In j refs -> nth_error (lines ax') j = nth_error (lines ax1) j).
Proof.
  assert (H : RadarAxes.plot PolarAxes.plot
                (floats [0; 1; 2]%R, floats [1; 2; 3]%R, "b") blank_axes
              = OK (PyNone,
                    set_lines_field
                      (lines blank_axes
                       ++ [mkLine2D (floats [0; 1; 2]%R ++ [Finite 0])
                                    (floats [1; 2; 3]%R ++ [Finite 1]) "b"])
                      blank_axes)).
  { apply (plot_closes_new_line (floats [0; 1; 2]%R) (floats [1; 2; 3]%R) "b"
             blank_axes (Finite 0) (Finite 2) (Finite 1));
      [reflexivity | reflexivity | reflexivity
      | apply float_ne_finite; lra | reflexivity]. }
  destruct (plot_keeps _ _ _ _ _ H) as (refs & ax1 & K).
  eexists; exists refs, ax1. split; [exact H | exact K].
Defined.

(** X6.  [ax.plot(x, y)] on arrays of equal, non-zero length adds exactly
    one line after the lines already there and returns [None]: the line is
    [(x, y)] itself when [x[0] == x[-1]], and [(x, y)] followed by
    [(x[0], y[0])] when [x[0] != x[-1]]. *)
Theorem plot_adds_one_line (x y : list float) (c : string) (ax : Axes)
        (x0 xlast y0 : float) :
  List.length x = List.length y ->
  hd_error x = Some x0 ->
  last_error x = Some xlast ->
  hd_error y = Some y0 ->
  (float_ne x0 xlast = false ->
   RadarAxes.plot PolarAxes.plot (x, y, c) ax
   = OK (PyNone, set_lines_field (lines ax ++ [mkLine2D x y c]) ax)) /\
  (forall r, x0 = Finite r -> xlast = Finite r ->
   RadarAxes.plot PolarAxes.plot (x, y, c) ax
   = OK (PyNone, set_lines_field (lines ax ++ [mkLine2D x y c]) ax)) /\
  (float_ne x0 xlast = true ->
   RadarAxes.plot PolarAxes.plot (x, y, c) ax
   = OK (PyNone,
         set_lines_field
           (lines ax ++ [mkLine2D (x ++ [x0]) (y ++ [y0]) c]) ax)) /\
  (forall a b, x0 = Finite a -> xlast = Finite b -> a <> b ->
   RadarAxes.plot PolarAxes.plot (x, y, c) ax
   = OK (PyNone,
         set_lines_field
           (lines ax ++ [mkLine2D (x ++ [x0]) (y ++ [y0]) c]) ax)).
Proof.
  intros Hlen Hx0 Hxl Hy0.
  split; [| split; [| split]].
  - intros He. now apply (plot_keeps_new_line x y c ax x0 xlast).
  - intros r -> ->.
    apply (plot_keeps_new_line x y c ax (Finite r) (Finite r));
      try assumption.
    apply float_ne_same.
  - intros Hne. now apply (plot_closes_new_line x y c ax x0 xlast y0).
  - intros a b -> -> Hab.
    apply (plot_closes_new_line x y c ax (Finite a) (Finite b) y0);
      try assumption.
    now apply float_ne_finite.
Qed.

(** Plotting (0, 1), (1, 2), (2, 3) adds the line closed by (0, 1);
    plotting (0, 1), (1, 2), (0, 3) adds the line as it is. *)
Lemma plot_adds_one_line_witness :
  RadarAxes.plot PolarAxes.plot
    (floats [0; 1; 2]%R, floats [1; 2; 3]%R, "b") blank_axes
  = OK (PyNone,
        set_lines_field
          (lines blank_axes
           ++ [mkLine2D (floats [0; 1; 2]%R ++ [Finite 0])
                        (floats [1; 2; 3]%R ++ [Finite 1]) "b"])
          blank_axes) /\
  RadarAxes.plot PolarAxes.plot
    (floats [0; 1; 0]%R, floats [1; 2; 3]%R, "b") blank_axes
  = OK (PyNone,
        set_lines_field
          (lines blank_axes
           ++ [mkLine2D (floats [0; 1; 0]%R) (floats [1; 2; 3]%R) "b"])
          blank_axes).
Proof.
  split.
  - apply (proj1 (proj2 (proj2
             (plot_adds_one_line (floats [0; 1; 2]%R) (floats [1; 2; 3]%R) "b"
                blank_axes (Finite 0) (Finite 2) (Finite 1)
                eq_refl eq_refl eq_refl eq_refl)))).
    apply float_ne_finite. lra.
  - apply (proj1
             (plot_adds_one_line (floats [0; 1; 0]%R) (floats [1; 2; 3]%R) "b"
                blank_axes (Finite 0) (Finite 0) (Finite 1)
                eq_refl eq_refl eq_refl eq_refl)).
    apply float_ne_same.
Defined.

(** ** The frame: patch, spines and constructor *)

Lemma gen_axes_cases (N : Z) (frame : string) :
  (frame = "circle" /\
   RadarAxes._gen_axes_patch N frame = OK (Circle (0.5, 0.5)%Q 0.5%Q) /\
   RadarAxes._gen_axes_spines N frame = OK [("polar", ArcSpine)]) \/
  (frame = "polygon" /\ N <> 0%Z /\
   RadarAxes._gen_axes_patch N frame
   = OK (RegularPolygon (0.5, 0.5)%Q N 0.5%Q "k") /\
   RadarAxes._gen_axes_spines N frame
   = OK [("polar", PolygonSpine "circle" N 0.5%Q (0.5, 0.5)%Q)]) \/
  (frame = "polygon" /\ N = 0%Z /\
   RadarAxes._gen_axes_patch N frame = Raise zero_division /\
   RadarAxes._gen_axes_spines N frame = Raise zero_division) \/
  (frame <> "circle" /\ frame <> "polygon" /\
   RadarAxes._gen_axes_patch N frame = Raise (unknown_frame frame) /\
   RadarAxes._gen_axes_spines N frame = Raise (unknown_frame frame)).
Proof.
  destruct (String.eqb_spec frame "circle") as [-> | Hc];
    [left; repeat split |].
  destruct (String.eqb_spec frame "polygon") as [-> | Hp].
  - destruct (Z.eq_dec N 0) as [-> | HN].
    + right; right; left. repeat split.
    + right; left. split; [reflexivity |]. split; [assumption |].
      split; [now apply gen_axes_patch_polygon
             | now apply gen_axes_spines_polygon].
  - right; right; right. split; [assumption |]. split; [assumption |].
    split; [now apply gen_axes_patch_unknown
           | now apply gen_axes_spines_unknown].
Qed.

(** X7.  The frame patch and the spines go together: one is built exactly
    when the other is, they fail with the same error, and the spine of a
    polygonal frame has the number of sides, the radius and the centre of
    the patch. *)
Theorem frame_patch_and_spines_agree (N : Z) (frame : string) :
  ((exists p, RadarAxes._gen_axes_patch N frame = OK p) <->
   (exists sp, RadarAxes._gen_axes_spines N frame = OK sp)) /\
  (forall e, RadarAxes._gen_axes_patch N frame = Raise e <->
             RadarAxes._gen_axes_spines N frame = Raise e) /\
  (forall p n,
      RadarAxes._gen_axes_patch N frame = OK p ->
      patch_sides p = Some n ->
      RadarAxes._gen_axes_spines N frame
      = OK [("polar", PolygonSpine "circle" n (patch_radius p) (patch_center p))]).
Proof.
  destruct (gen_axes_cases N frame)
    as [(-> & Hp & Hs) | [(-> & _ & Hp & Hs)
                         | [(-> & _ & Hp & Hs) | (_ & _ & Hp & Hs)]]];
    rewrite Hp, Hs.
  - split; [split; intros _; eexists; reflexivity |].
    split; [intros e; split; discriminate |].
    intros p n H. injection H as <-. discriminate.
  - split; [split; intros _; eexists; reflexivity |].
    split; [intros e; split; discriminate |].
    intros p n H. injection H as <-. cbn. intros E. now injection E as <-.
  - split; [split; intros [? H]; discriminate |].
    split; [intros e; split; intros H; injection H as <-; reflexivity |].
    intros p n H. discriminate H.
  - split; [split; intros [? H]; discriminate |].
    split; [intros e; split; intros H; injection H as <-; reflexivity |].
    intros p n H. discriminate H.
Qed.

(** X8.  For a count that is not negative, the constructor succeeds
    exactly when the frame is ['circle'], or ['polygon'] with a count
    other than zero; with the frame ['polygon'] and the count zero it raises
    [ZeroDivisionError].  The axes it leaves have the angle zero at the
    top (['N']), hold the patch and the spines of the frame, and no line,
    fill, label or legend has been added. *)
Theorem init_sets_frame_and_zero_location (N : Z) (frame : string) (ax : Axes) :
  (0 <= N)%Z ->
  ((frame = "circle" \/ (frame = "polygon" /\ (1 <= N)%Z)) <->
   (exists ax', RadarAxes.__init__ N frame ax = OK (tt, ax'))) /\
  (frame = "polygon" -> N = 0%Z ->
   RadarAxes.__init__ N frame ax = Raise zero_division) /\
  (forall u ax',
      RadarAxes.__init__ N frame ax = OK (u, ax') ->
      theta_zero_location ax' = "N" /\
      RadarAxes._gen_axes_patch N frame = OK (match patch ax' with
                                              | Some p => p
                                              | None => Circle (0, 0)%Q 0%Q
                                              end) /\
      RadarAxes._gen_axes_spines N frame = OK (spines ax') /\
      lines ax' = lines ax /\
      patches ax' = patches ax /\
      thetagrids ax' = thetagrids ax /\
      legend_labels ax' = legend_labels ax).
Proof.
  intros HN.
  unfold RadarAxes.__init__, PolarAxes.__init__,
    PolarAxes.set_theta_zero_location, bind, lift, modify.
  destruct (gen_axes_cases N frame)
    as [(-> & Hp & Hs) | [(-> & HN0 & Hp & Hs)
                         | [(-> & -> & Hp & Hs) | (Hc & Hg & Hp & Hs)]]];
    rewrite Hp, Hs.
  - split; [split; [intros _; eexists; reflexivity | intros _; now left] |].
    split; [discriminate |].
    intros u ax' H. injection H as _ <-. repeat split.
  - split; [split; [intros _; eexists; reflexivity
                   | intros _; right; split; [reflexivity | lia]] |].
    split; [intros _ E; contradiction |].
    intros u ax' H. injection H as _ <-. repeat split.
  - split; [split; [intros [E | [_ E]]; [discriminate E | lia]
                   | intros [? H]; discriminate] |].
    split; [reflexivity |].
    discriminate.
  - split; [split; [intros [? | [? _]]; contradiction
                   | intros [? H]; discriminate] |].
    split; [intros E; contradiction |].
    discriminate.
Qed.

(** The constructor of the script's axes: nine sides. *)
Lemma init_sets_frame_and_zero_location_witness :
  exists ax',
    RadarAxes.__init__ 9 "polygon" blank_axes = OK (tt, ax') /\
    theta_zero_location ax' = "N" /\
    patch ax' = Some (RegularPolygon (0.5, 0.5)%Q 9 0.5%Q "k").
Proof.
  assert (H0 : (0 <= 9)%Z) by lia.
  assert (H1 : (1 <= 9)%Z) by lia.
  destruct (proj1 (proj1 (init_sets_frame_and_zero_location 9 "polygon"
                            blank_axes H0))
                  (or_intror (conj eq_refl H1)))
    as [ax' H].
  exists ax'. split; [exact H |].
  cbn in H. injection H as <-. split; reflexivity.
Defined.

(** ** [radar_factory]: the registry and the degenerate counts *)

Lemma get_projection_class_other (reg : Registry) (cls : AxesClass)
      (name : string) :
  name <> "radar" ->
  get_projection_class ((RadarAxes.name, cls) :: reg) name
  = get_projection_class reg name.
Proof.
  intros Hname. cbn [get_projection_class].
  destruct (String.eqb_spec RadarAxes.name name) as [E | _]; [| reflexivity].
  unfold RadarAxes.name in E. congruence.
Qed.

(** X9.  The projection is always registered under the name ['radar']: a
    second call of [radar_factory] replaces the class of the first, so that
    axes created afterwards use the count, the frame and the angles of the
    second call; the projections of other names are not touched. *)
Theorem radar_factory_replaces_projection
        (N1 N2 : Z) (frame1 frame2 : string) (reg reg1 reg2 : Registry)
        (th1 th2 : list R) :
  radar_factory N1 frame1 reg = OK (th1, reg1) ->
  radar_factory N2 frame2 reg1 = OK (th2, reg2) ->
  get_projection_class reg1 "radar" = OK (mkAxesClass "radar" N1 frame1 th1) /\
  get_projection_class reg2 "radar" = OK (mkAxesClass "radar" N2 frame2 th2) /\
  (forall name, name <> "radar" ->
                get_projection_class reg2 name = get_projection_class reg name).
Proof.
  intros H1 H2.
  pose proof (radar_factory_inv _ _ _ _ _ H1) as L1.
  pose proof (radar_factory_inv _ _ _ _ _ H2) as L2.
  rewrite (radar_factory_OK N1 frame1 reg th1 L1) in H1.
  rewrite (radar_factory_OK N2 frame2 reg1 th2 L2) in H2.
  injection H1 as <-. injection H2 as <-.
  split; [reflexivity |]. split; [reflexivity |].
  intros name Hname. now rewrite !get_projection_class_other.
Qed.

Lemma radar_factory_replaces_projection_witness :
  exists th1 reg1 th2 reg2,
    radar_factory 9 "polygon" [] = OK (th1, reg1) /\
    radar_factory 3 "circle" reg1 = OK (th2, reg2) /\
    get_projection_class reg1 "radar" = OK (mkAxesClass "radar" 9 "polygon" th1) /\
    get_projection_class reg2 "radar" = OK (mkAxesClass "radar" 3 "circle" th2) /\
    (forall name, name <> "radar" ->
                  get_projection_class reg2 name = get_projection_class [] name).
Proof.
  exists script_theta, [("radar", radar_class)].
  exists (map (fun yi => yi * ((2 * PI - 0) / IZR 3) + 0)%R (np.arange 3)).
  eexists.
  split; [reflexivity |]. split; [reflexivity |].
  apply (radar_factory_replaces_projection 9 3 "polygon" "circle" []);
    reflexivity.
Defined.


(** ** The radar transform *)

(** X11.  Whatever the path, the path that the radar transform returns has
    the step count 1, so transforming it again does not interpolate: the
    interpolation is applied at most once. *)
Theorem transformed_path_not_interpolated_again
        (num_vars : Z) (interpolated : Path -> Z -> Path)
        (transform : list (R * R) -> list (R * R)) (path : Path) :
  let once :=
    RadarTransform.transform_path_non_affine num_vars interpolated transform path in
  _interpolation_steps once = 1%Z /\
  RadarTransform.transform_path_non_affine num_vars interpolated transform once
  = Path_new (transform (vertices once)) (codes once).
Proof.
  cbn zeta. split; [reflexivity |].
  apply unit_step_paths_not_interpolated. cbn. lia.
Qed.

(** X12.  With the library's [Path.interpolated] taken as cutting every
    segment into equal pieces, the gridline at radius [r] is transformed at
    the points that sit at the [N] axis angles of [radar_factory], followed
    by the closing point at [2π]: [N + 1] vertices, the corners of a
    polygon on the axes. *)
Theorem gridline_becomes_polygon
        (N : Z) (r : R) (th : list R)
        (transform : list (R * R) -> list (R * R)) :
  (2 <= N)%Z ->
  np.linspace 0 (2 * np.pi) N = OK th ->
  vertices (RadarTransform.transform_path_non_affine N Path_interpolated
              transform (gridline r))
  = transform (map (fun t => (t, r)) (th ++ [2 * PI]%R)) /\
  List.length (map (fun t => (t, r)) (th ++ [2 * PI]%R)) = S (Z.to_nat N).
Proof.
  intros HN Hth. split.
  - rewrite (linspace_2pi N ltac:(lia)) in Hth. injection Hth as <-.
    unfold RadarTransform.transform_path_non_affine, gridline.
    cbn [_interpolation_steps Z.gtb Z.compare Pos.compare Pos.compare_cont].
    unfold Path_new, Path_interpolated. cbn [vertices].
    destruct (Z.eqb_spec N 1); [lia |].
    cbn [vertices Path_new simple_linear_interpolation].
    f_equal. rewrite map_app. cbn [map]. f_equal.
    unfold np.arange. rewrite !map_map. apply map_ext. intros j.
    assert (HNr : (0 < IZR N)%R) by (apply IZR_lt; lia).
    rewrite IZR_to_nat by lia. cbn [fst snd].
    f_equal; field; lra.
  - rewrite length_map, length_app, (linspace_length _ _ _ _ Hth).
    cbn [List.length]. lia.
Qed.

Lemma gridline_becomes_polygon_witness :
  vertices (RadarTransform.transform_path_non_affine 9 Path_interpolated
              PolarTransform_transform (gridline 1))
  = PolarTransform_transform
      (map (fun t => (t, 1%R)) (script_theta ++ [2 * PI]%R)) /\
  List.length (map (fun t => (t, 1%R)) (script_theta ++ [2 * PI]%R))
  = S (Z.to_nat 9).
Proof.
  apply (gridline_becomes_polygon 9 1 script_theta PolarTransform_transform);
    [lia | reflexivity].
Defined.

(** ** The body of the plotting loop *)

Lemma firstn_1_hd {A : Type} (l : list A) (a : A) :
  hd_error l = Some a -> firstn 1 l = [a].
Proof. destruct l; simpl; [discriminate |]. intros H. now injection H as ->. Qed.

Lemma axes_is_start (i : nat) (cls : AxesClass) (ax : Axes) (w : World) :
  nth_error (axs w) i = Some (cls, ax) -> axes_is i cls ax w w.
Proof.
  intros H. split; [apply globals_kept_refl |]. split; [exact H | reflexivity].
Qed.

Lemma on_axes_step {A : Type} (i : nat) (m : AxesClass -> M Axes A)
      (cls : AxesClass) (ax ax' : Axes) (a : A) (w0 w : World) :
  axes_is i cls ax w0 w ->
  m cls ax = OK (a, ax') ->
  exists w', on_axes i m w = OK (a, w') /\ axes_is i cls ax' w0 w'.
Proof.
  intros (K & Hnth & Hoth) Hm.
  exists (set_axs (list_update (axs w) i (cls, ax')) w).
  split; [unfold on_axes; now rewrite Hnth, Hm |].
  assert (Hi : i < List.length (axs w)) by (apply nth_error_Some; congruence).
  split; [| split].
  - apply (globals_kept_trans _ _ _ K). repeat split.
    cbn. now apply map_fst_list_update with (b := ax).
  - cbn [axs set_axs]. now apply nth_error_list_update_eq.
  - intros j Hj. cbn [axs set_axs].
    rewrite nth_error_list_update_neq by congruence. now apply Hoth.
Qed.

Lemma axes_is_globals (i : nat) (cls : AxesClass) (ax : Axes) (w0 w : World) :
  axes_is i cls ax w0 w ->
  theta w = theta w0 /\ colors w = colors w0 /\
  spoke_labels w = spoke_labels w0 /\ data w = data w0.
Proof. intros ((_ & H1 & H2 & H3 & H4 & _) & _). auto. Qed.

Lemma hd_error_floats (l : list R) (a : R) :
  hd_error l = Some a -> hd_error (floats l) = Some (Finite a).
Proof. destruct l; cbn; [discriminate |]. intros H. now injection H as ->. Qed.

Lemma last_error_floats (l : list R) (a : R) :
  last_error l = Some a -> last_error (floats l) = Some (Finite a).
Proof.
  unfold last_error, floats. intros H.
  now rewrite length_map, nth_error_map, H.
Qed.

Lemma traces_run (i : nat) (cls : AxesClass) (th : list R) (x0 xlast : R)
      (w0 : World) (pairs : list (list Q * string)) :
  hd_error th = Some x0 ->
  last_error th = Some xlast ->
  x0 <> xlast ->
  Forall (fun dc => List.length (fst dc) = List.length th) pairs ->
  forall ax w,
    axes_is i cls ax w0 w ->
    exists w',
      for_each pairs
        (fun dc : list Q * string =>
           let '(d, color) := dc in
           on_axes i (ax_plot (floats th) (floats (map Q2R d)) color) ;;;
           on_axes i (ax_fill (floats th) (floats (map Q2R d)) color 0.25%Q
                              "_nolegend_")) w
      = OK (tt, w') /\
      axes_is i cls (fold_left (add_trace th) pairs ax) w0 w'.
Proof.
  intros Hx0 Hxl Hne.
  induction pairs as [| [d c] pairs IH]; intros Hall ax w Hw.
  - exists w. split; [reflexivity | exact Hw].
  - inversion Hall as [| ? ? Hd Hrest]; subst. cbn [fst] in Hd.
    assert (Hy : exists y0, hd_error (floats (map Q2R d)) = Some y0).
    { apply hd_error_nonempty. intros E.
      apply (f_equal (@List.length _)) in E. unfold floats in E.
      rewrite !length_map, Hd in E.
      destruct th; [discriminate | discriminate]. }
    destruct Hy as [y0 Hy0].
    pose proof (hd_error_floats _ _ Hx0) as Hx0'.
    pose proof (last_error_floats _ _ Hxl) as Hxl'.
    destruct (on_axes_step i (ax_plot (floats th) (floats (map Q2R d)) c) cls ax
                (set_lines_field (lines ax ++ [closed_trace th (d, c)]) ax)
                PyNone w0 w Hw) as (w1 & H1 & K1).
    { unfold ax_plot, closed_trace. cbn [fst snd].
      rewrite (firstn_1_hd _ _ Hx0'), (firstn_1_hd _ _ Hy0).
      apply (plot_closes_new_line (floats th) (floats (map Q2R d)) c ax
               (Finite x0) (Finite xlast) y0); try assumption.
      - unfold floats. rewrite !length_map. congruence.
      - now apply float_ne_finite. }
    destruct (on_axes_step i
                (ax_fill (floats th) (floats (map Q2R d)) c 0.25%Q "_nolegend_")
                cls _ (add_trace th ax (d, c)) tt w0 w1 K1)
      as (w2 & H2 & K2); [reflexivity |].
    destruct (IH Hrest _ w2 K2) as (w3 & H3 & K3).
    exists w3. split; [| exact K3].
    cbn [for_each].
    assert (Hbody : (on_axes i (ax_plot (floats th) (floats (map Q2R d)) c) ;;;
                     on_axes i (ax_fill (floats th) (floats (map Q2R d)) c
                                        0.25%Q "_nolegend_")) w
                    = OK (tt, w2))
      by now rewrite (bind_OK _ _ _ _ _ H1).
    rewrite (bind_OK _ _ _ _ _ Hbody). exact H3.
Qed.

Lemma fold_add_trace_fields (th : list R) (pairs : list (list Q * string)) :
  forall ax,
    lines (fold_left (add_trace th) pairs ax)
    = lines ax ++ map (closed_trace th) pairs /\
    patches (fold_left (add_trace th) pairs ax)
    = patches ax ++ map (filled_trace th) pairs /\
    title (fold_left (add_trace th) pairs ax) = title ax /\
    rgrids (fold_left (add_trace th) pairs ax) = rgrids ax /\
    theta_zero_location (fold_left (add_trace th) pairs ax)
    = theta_zero_location ax /\
    patch (fold_left (add_trace th) pairs ax) = patch ax /\
    spines (fold_left (add_trace th) pairs ax) = spines ax /\
    legend_labels (fold_left (add_trace th) pairs ax) = legend_labels ax.
Proof.
  induction pairs as [| dc pairs IH]; intros ax.
  - cbn. rewrite !app_nil_r. repeat split.
  - cbn [fold_left map].
    destruct (IH (add_trace th ax dc)) as (E1 & E2 & E3 & E4 & E5 & E6 & E7 & E8).
    rewrite E1, E2, E3, E4, E5, E6, E7, E8. cbn.
    rewrite <- !app_assoc. repeat split.
Qed.

(** The effect of the loop body on the world and on the axes it draws on. *)
Lemma plot_case_run (i : nat) (t : string) (case_data : list (list Q))
      (w : World) (cls : AxesClass) (ax : Axes) (th : list R)
      (cs ls : list string) (x0 xlast : R) :
  nth_error (axs w) i = Some (cls, ax) ->
  theta w = Some th ->
  colors w = Some cs ->
  spoke_labels w = Some (Labels ls) ->
  hd_error th = Some x0 ->
  last_error th = Some xlast ->
  x0 <> xlast ->
  Forall (fun d => List.length d = List.length th) case_data ->
  List.length ls = List.length (cls_theta cls) ->
  exists w' ax',
    plot_case i (MapEntry t case_data) w = OK (tt, w') /\
    axes_is i cls ax' w w' /\
    title ax' = t /\
    rgrids ax' = [0.2; 0.4; 0.6; 0.8]%Q /\
    lines ax' = lines ax ++ map (closed_trace th) (combine case_data cs) /\
    patches ax' = patches ax ++ map (filled_trace th) (combine case_data cs) /\
    thetagrids ax' = combine (np.degrees (cls_theta cls)) ls /\
    theta_zero_location ax' = theta_zero_location ax /\
    patch ax' = patch ax /\
    spines ax' = spines ax /\
    legend_labels ax' = legend_labels ax.
Proof.
  intros Hnth Hth Hcs Hsl Hx0 Hxl Hne Hrows Hls. cbn [plot_case].
  pose proof (axes_is_start i cls ax w Hnth) as K0.
  destruct (on_axes_step i (fun _ => PolarAxes.set_rgrids [0.2; 0.4; 0.6; 0.8]%Q)
              cls ax _ tt w w K0 eq_refl) as (w1 & H1 & K1).
  rewrite (bind_OK _ _ _ _ _ H1).
  destruct (on_axes_step i (fun _ => PolarAxes.set_title t)
              cls _ _ tt w w1 K1 eq_refl) as (w2 & H2 & K2).
  rewrite (bind_OK _ _ _ _ _ H2).
  destruct (axes_is_globals _ _ _ _ _ K2) as (G1 & G2 & _ & _).
  rewrite (bind_OK _ _ _ _ _ (load_OK "theta" theta w2 th ltac:(congruence))).
  rewrite (bind_OK _ _ _ _ _ (load_OK "colors" colors w2 cs ltac:(congruence))).
  assert (Hpairs : Forall (fun dc : list Q * string =>
                             List.length (fst dc) = List.length th)
                          (combine case_data cs)).
  { rewrite Forall_forall in *. intros [d c] Hin. cbn [fst].
    apply in_combine_l in Hin. auto. }
  destruct (traces_run i cls th x0 xlast w (combine case_data cs) Hx0 Hxl Hne
              Hpairs _ w2 K2) as (w3 & H3 & K3).
  rewrite (bind_OK _ _ _ _ _ H3).
  destruct (axes_is_globals _ _ _ _ _ K3) as (_ & _ & G3 & _).
  rewrite (bind_OK _ _ _ _ _
             (load_OK "spoke_labels" spoke_labels w3 (Labels ls)
                ltac:(congruence))).
  destruct (on_axes_step i (ax_set_varlabels ls) cls _
              (set_thetagrids_field (combine (np.degrees (cls_theta cls)) ls)
                 (fold_left (add_trace th) (combine case_data cs)
                    (set_title_field t
                       (set_rgrids_field [0.2; 0.4; 0.6; 0.8]%Q ax))))
              tt w w3 K3) as (w4 & H4 & K4).
  { unfold ax_set_varlabels, RadarAxes.set_varlabels.
    apply set_thetagrids_OK. unfold np.degrees. now rewrite length_map. }
  eexists; eexists. split; [exact H4 |]. split; [exact K4 |].
  destruct (fold_add_trace_fields th (combine case_data cs)
              (set_title_field t (set_rgrids_field [0.2; 0.4; 0.6; 0.8]%Q ax)))
    as (E1 & E2 & E3 & E4 & E5 & E6 & E7 & E8).
  cbn [title rgrids lines patches thetagrids theta_zero_location patch spines
       legend_labels set_thetagrids_field].
  rewrite E1, E2, E3, E4, E5, E6, E7, E8. repeat split.
Qed.

(** X13.  The body of the plotting loop, run for a map entry on the [i]-th
    axes: when every row has as many values as there are angles, the first
    and the last angle differ, and the label row has as many labels as the
    class of the axes has angles, it returns, sets the title and the
    radial grid, adds one closed line and one closed filled polygon per
    pair of a row and a colour (rows beyond the colours are dropped) and
    labels the axes; the registry, [theta], [data], [spoke_labels],
    [colors] and all other axes objects are as before. *)
Theorem plot_case_draws_chart
        (i : nat) (t : string) (case_data : list (list Q))
        (w : World) (cls : AxesClass) (ax : Axes) (th : list R)
        (cs ls : list string) (x0 xlast : R) :
  nth_error (axs w) i = Some (cls, ax) ->
  theta w = Some th ->
  colors w = Some cs ->
  spoke_labels w = Some (Labels ls) ->
  hd_error th = Some x0 ->
  last_error th = Some xlast ->
  x0 <> xlast ->
  Forall (fun d => List.length d = List.length th) case_data ->
  List.length ls = List.length (cls_theta cls) ->
  exists w' ax',
    plot_case i (MapEntry t case_data) w = OK (tt, w') /\
    axes_is i cls ax' w w' /\
    title ax' = t /\
    rgrids ax' = [0.2; 0.4; 0.6; 0.8]%Q /\
    lines ax' = lines ax ++ map (closed_trace th) (combine case_data cs) /\
    patches ax' = patches ax ++ map (filled_trace th) (combine case_data cs) /\
    List.length (lines ax')
    = List.length (lines ax) + Nat.min (List.length case_data) (List.length cs) /\
    thetagrids ax' = combine (np.degrees (cls_theta cls)) ls /\
    legend_labels ax' = legend_labels ax.
Proof.
  intros Hnth Hth Hcs Hsl Hx0 Hxl Hne Hrows Hls.
  destruct (plot_case_run i t case_data w cls ax th cs ls x0 xlast
              Hnth Hth Hcs Hsl Hx0 Hxl Hne Hrows Hls)
    as (w' & ax' & H & K & E1 & E2 & E3 & E4 & E5 & _ & _ & _ & E9).
  exists w', ax'. repeat (split; [assumption |]).
  split; [| split; assumption].
  now rewrite E3, length_app, length_map, length_combine.
Qed.

Lemma plot_case_draws_chart_witness :
  exists w' ax',
    plot_case 0 (MapEntry "Icebox" [[1; 1; 1; 1; 1; 1; 1; 1; 1]%Q])
              world_after_colors = OK (tt, w') /\
    axes_is 0 radar_class ax' world_after_colors w' /\
    title ax' = "Icebox" /\
    rgrids ax' = [0.2; 0.4; 0.6; 0.8]%Q /\
    lines ax'
    = lines polygon_axes
      ++ map (closed_trace script_theta)
             (combine [[1; 1; 1; 1; 1; 1; 1; 1; 1]%Q] script_colors) /\
    patches ax'
    = patches polygon_axes
      ++ map (filled_trace script_theta)
             (combine [[1; 1; 1; 1; 1; 1; 1; 1; 1]%Q] script_colors) /\
    List.length (lines ax')
    = List.length (lines polygon_axes)
      + Nat.min (List.length [[1; 1; 1; 1; 1; 1; 1; 1; 1]%Q])
                (List.length script_colors) /\
    thetagrids ax' = combine (np.degrees (cls_theta radar_class)) script_labels /\
    legend_labels ax' = legend_labels polygon_axes.
Proof.
  apply (plot_case_draws_chart 0 "Icebox" [[1; 1; 1; 1; 1; 1; 1; 1; 1]%Q]
           world_after_colors radar_class polygon_axes script_theta
           script_colors script_labels
           (INR 0 * ((2 * PI - 0) / IZR 9) + 0)%R
           (INR 8 * ((2 * PI - 0) / IZR 9) + 0)%R).
  - reflexivity.
  - reflexivity.
  - reflexivity.
  - reflexivity.
  - reflexivity.
  - reflexivity.
  - pose proof PI_RGT_0. cbn [INR]. lra.
  - repeat constructor.
  - reflexivity.
Defined.

(** ** The figure that the script leaves *)

Lemma script_case_run (i : nat) (t : string) (rows : list (list Q))
      (w : World) (ax : Axes) :
  nth_error (axs w) i = Some (radar_class, ax) ->
  theta w = Some script_theta ->
  colors w = Some script_colors ->
  spoke_labels w = Some (Labels script_labels) ->
  Forall (fun d => List.length d = 9) rows ->
  lines ax = [] ->
  patches ax = [] ->
  theta_zero_location ax = "N" ->
  patch ax = Some (RegularPolygon (0.5, 0.5)%Q 9 0.5%Q "k") ->
  exists w' ax',
    plot_case i (MapEntry t rows) w = OK (tt, w') /\
    axes_is i radar_class ax' w w' /\
    chart_of script_theta script_colors script_labels (MapEntry t rows) ax' /\
    legend_labels ax' = legend_labels ax.
Proof.
  intros Hnth Hth Hcs Hsl Hrows Hl Hp Hz Hpatch.
  destruct (plot_case_run i t rows w radar_class ax script_theta script_colors
              script_labels
              (INR 0 * ((2 * PI - 0) / IZR 9) + 0)%R
              (INR 8 * ((2 * PI - 0) / IZR 9) + 0)%R
              Hnth Hth Hcs Hsl eq_refl eq_refl)
    as (w' & ax' & H & K & E1 & E2 & E3 & E4 & E5 & E6 & E7 & _ & E9).
  - pose proof PI_RGT_0. cbn [INR]. lra.
  - exact Hrows.
  - reflexivity.
  - exists w', ax'. split; [exact H |]. split; [exact K |].
    split; [| exact E9].
    cbn [chart_of]. rewrite E3, E4, Hl, Hp, E6, E7.
    repeat split; assumption.
Qed.

Lemma list_of_four {A : Type} (l : list A) (a b c d : A) :
  List.length l = 4 ->
  nth_error l 0 = Some a -> nth_error l 1 = Some b ->
  nth_error l 2 = Some c -> nth_error l 3 = Some d ->
  l = [a; b; c; d].
Proof.
  destruct l as [| a' [| b' [| c' [| d' [| ? ?]]]]]; cbn; try discriminate.
  intros _ Ha Hb Hc Hd. congruence.
Qed.

Lemma only_axes_refl (w : World) : only_axes w w.
Proof. unfold only_axes. now destruct w. Qed.

Lemma only_axes_trans (a b c : World) :
  only_axes a b -> only_axes b c -> only_axes a c.
Proof.
  unfold only_axes. destruct a, b, c. cbn. intros H1 H2.
  injection H1 as -> -> -> -> -> -> -> ->.
  injection H2 as -> -> -> -> -> -> -> ->.
  reflexivity.
Qed.

Lemma on_axes_only_axes {A : Type} (i : nat) (m : AxesClass -> M Axes A)
      (w : World) (a : A) (w' : World) :
  on_axes i m w = OK (a, w') -> only_axes w w'.
Proof.
  unfold on_axes.
  destruct (nth_error (axs w) i) as [[cls ax] |]; [| discriminate].
  destruct (m cls ax) as [[a' ax'] | e]; [| discriminate].
  intros H. injection H as _ <-. unfold only_axes. now destruct w.
Qed.

Lemma load_inv {A : Type} (name : string) (field : World -> option A)
      (w : World) (v : A) (w' : World) :
  load name field w = OK (v, w') -> w' = w /\ field w = Some v.
Proof.
  unfold load, bind, get, ret, raise.
  destruct (field w); [| discriminate].
  intros H. injection H as <- <-. auto.
Qed.

Lemma for_each_preserves {S A : Type} (R : S -> S -> Prop)
      (body : A -> M S unit) (xs : list A) :
  (forall s, R s s) ->
  (forall s1 s2 s3, R s1 s2 -> R s2 s3 -> R s1 s3) ->
  (forall x s u s', body x s = OK (u, s') -> R s s') ->
  forall s u s', for_each xs body s = OK (u, s') -> R s s'.
Proof.
  intros Hrefl Htrans Hbody.
  induction xs as [| x xs IH]; intros s u s' H.
  - cbn in H. injection H as _ <-. apply Hrefl.
  - cbn [for_each] in H. apply bind_inv in H as (u1 & s1 & H1 & H2).
    eapply Htrans; [eapply Hbody; eassumption | eapply IH; eassumption].
Qed.

(** The loop body changes nothing but axes objects. *)
Lemma plot_case_only_axes (i : nat) (entry : Item) (w : World) (u : unit)
      (w' : World) :
  plot_case i entry w = OK (u, w') -> only_axes w w'.
Proof.
  destruct entry as [ls | t rows]; [discriminate |].
  cbn [plot_case]. intros H.
  apply bind_inv in H as (u1 & w1 & H1 & H).
  apply bind_inv in H as (u2 & w2 & H2 & H).
  apply bind_inv in H as (th & w3 & H3 & H).
  apply bind_inv in H as (cs & w4 & H4 & H).
  apply bind_inv in H as (u5 & w5 & H5 & H).
  apply bind_inv in H as (sl & w6 & H6 & H).
  apply on_axes_only_axes in H1, H2.
  apply load_inv in H3 as [-> _]. apply load_inv in H4 as [-> _].
  apply load_inv in H6 as [-> _].
  apply (for_each_preserves only_axes) in H5;
    [| apply only_axes_refl | apply only_axes_trans |].
  - destruct sl as [ls | ? ?]; [| discriminate].
    apply on_axes_only_axes in H.
    eauto using only_axes_trans.
  - intros [d c] s v s' Hb.
    apply bind_inv in Hb as (r & s1 & Hp & Hf).
    apply on_axes_only_axes in Hp, Hf. eauto using only_axes_trans.
Qed.

Lemma only_axes_figure (w w' : World) :
  only_axes w w' ->
  fig_text w' = fig_text w /\ shown w' = shown w /\ labels w' = labels w.
Proof.
  unfold only_axes. intros <-. now destruct w'.
Qed.

Lemma map_entries_rows :
  exists t0 r0 t1 r1 t2 r2 t3 r3,
    map_entries = [MapEntry t0 r0; MapEntry t1 r1; MapEntry t2 r2; MapEntry t3 r3] /\
    Forall (fun rows => List.length rows = 5 /\
                        Forall (fun d : list Q => List.length d = 9) rows)
           [r0; r1; r2; r3].
Proof.
  do 8 eexists. split; [reflexivity |].
  repeat (apply Forall_cons || apply Forall_nil);
    (split; [reflexivity |]);
    repeat (apply Forall_cons || apply Forall_nil); reflexivity.
Qed.

Lemma loop_of_four (e0 e1 e2 e3 : Item) (w : World) :
  data w = Some [e0; e1; e2; e3] ->
  List.length (axs w) = 4 ->
  stmt_loop w
  = (plot_case 0 e0 ;;; plot_case 1 e1 ;;; plot_case 2 e2 ;;;
     plot_case 3 e3 ;;; ret tt) w.
Proof.
  intros Hd Hlen. unfold stmt_loop.
  rewrite (bind_OK _ _ _ _ _ (load_OK "data" data w _ Hd)).
  unfold bind at 1. cbn [get]. rewrite Hlen. reflexivity.
Qed.

Lemma stmt_legend_exact (w : World) (c : AxesClass) (a : Axes)
      (rest : list (AxesClass * Axes)) :
  axs w = (c, a) :: rest ->
  stmt_legend w
  = OK (tt, set_axs ((c, set_legend_field script_players a) :: rest)
              (set_labels script_players w)).
Proof.
  intros H. unfold stmt_legend, bind, modify, load, get, ret, on_axes.
  cbn. rewrite H. reflexivity.
Qed.

Lemma closed_trace_ten (d : list Q) (c : string) :
  List.length d = 9 ->
  closed_ten_point_line (closed_trace script_theta (d, c)).
Proof.
  intros Hd.
  do 9 (destruct d as [| ? d]; [discriminate |]).
  destruct d; [| discriminate].
  unfold closed_ten_point_line, closed_trace. cbn [xdata ydata fst snd].
  split; [reflexivity |]. split; reflexivity.
Qed.

Lemma chart_shape (t : string) (rows : list (list Q)) (a : Axes) :
  chart_of script_theta script_colors script_labels (MapEntry t rows) a ->
  List.length rows = 5 ->
  Forall (fun d : list Q => List.length d = 9) rows ->
  List.length (lines a) = 5 /\
  Forall closed_ten_point_line (lines a) /\
  List.length (patches a) = 5 /\
  Forall (fun p => closed p = true) (patches a) /\
  List.length (thetagrids a) = 9.
Proof.
  intros (_ & _ & El & Ep & Et & _ & _) Hlen Hrows.
  rewrite El, Ep, Et, !length_map, !length_combine, Hlen.
  split; [reflexivity |].
  split.
  { apply Forall_forall. intros l Hin. apply in_map_iff in Hin as ([d c] & <- & Hin).
    apply closed_trace_ten. apply in_combine_l in Hin.
    rewrite Forall_forall in Hrows. auto. }
  split; [reflexivity |].
  split; [| reflexivity].
  apply Forall_forall. intros p Hin. apply in_map_iff in Hin as (dc & <- & _).
  reflexivity.
Qed.

(** X14.  The script from end to end: it runs without an exception and
    leaves four radar axes, one per map entry and in the order of the
    table.  Each carries the title of its map, five closed lines of ten
    points and five closed filled polygons (one per player row, in the
    colours of the script), and the nine category labels at the nine
    angles; the legend with the five player names is on the first axes
    only, and the figure carries the banner text and has been shown. *)
Theorem script_draws_four_charts :
  exists tr w a0 a1 a2 a3,
    exec main initial_world = (tr, None) /\
    last_error tr = Some w /\
    axs w = [(radar_class, a0); (radar_class, a1);
             (radar_class, a2); (radar_class, a3)] /\
    Forall2 (chart_of script_theta script_colors script_labels)
            map_entries [a0; a1; a2; a3] /\
    Forall (fun a =>
              List.length (lines a) = 5 /\
              Forall closed_ten_point_line (lines a) /\
              List.length (patches a) = 5 /\
              Forall (fun p => closed p = true) (patches a) /\
              List.length (thetagrids a) = 9)
           [a0; a1; a2; a3] /\
    legend_labels a0 = Some script_players /\
    legend_labels a1 = None /\
    legend_labels a2 = None /\
    legend_labels a3 = None /\
    fig_text w = [script_banner] /\
    shown w = true.
Proof.
  destruct map_entries_rows
    as (t0 & r0 & t1 & r1 & t2 & r2 & t3 & r3 & Hme & Hshape).
  inversion Hshape as [| ? ? [L0 R0] Hs1]; subst.
  inversion Hs1 as [| ? ? [L1 R1] Hs2]; subst.
  inversion Hs2 as [| ? ? [L2 R2] Hs3]; subst.
  inversion Hs3 as [| ? ? [L3 R3] _]; subst.
  set (w5 := world_after_colors).
  destruct (script_case_run 0 t0 r0 w5 polygon_axes)
    as (wa & a0 & Ha & Ka & C0 & G0); try reflexivity; [exact R0 |].
  destruct (axes_is_globals _ _ _ _ _ Ka) as (Ta & Ca & Sa & _).
  destruct (script_case_run 1 t1 r1 wa polygon_axes)
    as (wb & a1 & Hb & Kb & C1 & G1); try reflexivity;
    [ destruct Ka as (_ & _ & Ka); now rewrite Ka by lia
    | now rewrite Ta | now rewrite Ca | now rewrite Sa | exact R1 |].
  destruct (axes_is_globals _ _ _ _ _ Kb) as (Tb & Cb & Sb & _).
  destruct (script_case_run 2 t2 r2 wb polygon_axes)
    as (wc & a2 & Hc & Kc & C2 & G2); try reflexivity;
    [ destruct Ka as (_ & _ & Ka); destruct Kb as (_ & _ & Kb);
      now rewrite Kb, Ka by lia
    | now rewrite Tb, Ta | now rewrite Cb, Ca | now rewrite Sb, Sa
    | exact R2 |].
  destruct (axes_is_globals _ _ _ _ _ Kc) as (Tc & Cc & Sc & _).
  destruct (script_case_run 3 t3 r3 wc polygon_axes)
    as (wd & a3 & Hd & Kd & C3 & G3); try reflexivity;
    [ destruct Ka as (_ & _ & Ka); destruct Kb as (_ & _ & Kb);
      destruct Kc as (_ & _ & Kc); now rewrite Kc, Kb, Ka by lia
    | now rewrite Tc, Tb, Ta | now rewrite Cc, Cb, Ca
    | now rewrite Sc, Sb, Sa | exact R3 |].
  assert (Hloop : stmt_loop w5 = OK (tt, wd)).
  { rewrite (loop_of_four (MapEntry t0 r0) (MapEntry t1 r1) (MapEntry t2 r2)
               (MapEntry t3 r3) w5); [| now rewrite <- Hme | reflexivity].
    rewrite (bind_OK _ _ _ _ _ Ha), (bind_OK _ _ _ _ _ Hb),
      (bind_OK _ _ _ _ _ Hc), (bind_OK _ _ _ _ _ Hd).
    reflexivity. }
  assert (Haxs : axs wd = [(radar_class, a0); (radar_class, a1);
                           (radar_class, a2); (radar_class, a3)]).
  { destruct Ka as (Ga & Na & _). destruct Kb as (Gb & Nb & Ob).
    destruct Kc as (Gc & Nc & Oc). destruct Kd as (Gd & Nd & Od).
    apply list_of_four.
    - rewrite (globals_kept_axs_length _ _ Gd), (globals_kept_axs_length _ _ Gc),
        (globals_kept_axs_length _ _ Gb), (globals_kept_axs_length _ _ Ga).
      reflexivity.
    - now rewrite Od, Oc, Ob by lia.
    - now rewrite Od, Oc by lia.
    - now rewrite Od by lia.
    - exact Nd. }
  pose proof (stmt_legend_exact wd _ _ _ Haxs) as Hleg.
  set (w7 := set_axs ((radar_class, set_legend_field script_players a0)
                        :: [(radar_class, a1); (radar_class, a2);
                            (radar_class, a3)])
                     (set_labels script_players wd)) in *.
  set (w8 := add_fig_text script_banner w7).
  exists [world_after_theta; world_after_data; world_after_spoke_labels;
          world_after_subplots; world_after_colors; wd; w7; w8; set_shown w8].
  exists (set_shown w8), (set_legend_field script_players a0), a1, a2, a3.
  split.
  { unfold main.
    rewrite (exec_cons _ _ _ _ stmt_theta_run).
    rewrite (exec_cons _ _ _ _ stmt_data_run).
    rewrite (exec_cons _ _ _ _ stmt_spoke_labels_run).
    rewrite (exec_cons _ _ _ _ stmt_subplots_run).
    rewrite (exec_cons _ _ _ _ stmt_colors_run).
    rewrite (exec_cons _ _ _ _ Hloop).
    rewrite (exec_cons _ _ _ _ Hleg).
    reflexivity. }
  split; [reflexivity |]. split; [reflexivity |].
  assert (C0' : chart_of script_theta script_colors script_labels
                         (MapEntry t0 r0) (set_legend_field script_players a0)).
  { destruct C0 as (E1 & E2 & E3 & E4 & E5 & E6 & E7). repeat split; assumption. }
  split.
  { rewrite Hme.
    apply Forall2_cons; [exact C0' |]. apply Forall2_cons; [exact C1 |].
    apply Forall2_cons; [exact C2 |]. apply Forall2_cons; [exact C3 |].
    apply Forall2_nil. }
  split.
  { apply Forall_cons; [now apply (chart_shape t0 r0) |].
    apply Forall_cons; [now apply (chart_shape t1 r1) |].
    apply Forall_cons; [now apply (chart_shape t2 r2) |].
    apply Forall_cons; [now apply (chart_shape t3 r3) |].
    apply Forall_nil. }
  split; [reflexivity |].
  split; [now rewrite G1 |]. split; [now rewrite G2 |]. split; [now rewrite G3 |].
  split; [| reflexivity].
  assert (Hfig : fig_text wd = []).
  { apply plot_case_only_axes in Ha, Hb, Hc, Hd.
    apply only_axes_figure in Ha as (Fa & _), Hb as (Fb & _),
        Hc as (Fc & _), Hd as (Fd & _).
    now rewrite Fd, Fc, Fb, Fa. }
  cbn [fig_text set_shown w8 add_fig_text w7 set_axs set_labels].
  now rewrite Hfig.
Qed.

(** ** What [plot] establishes *)

Lemma close_line_establishes (ax : Axes) (line : lineref) (u : unit)
      (ax' : Axes) :
  RadarAxes._close_line line ax = OK (u, ax') -> angle_closed ax' line.
Proof.
  intros H.
  destruct (close_line_inv ax line u ax' H)
    as (l & x0 & xl & Hl & Hx0 & Hxl & [[He ->] | (_ & y0 & _ & ->)]).
  - destruct (float_ne_false_inv _ _ He) as (r & -> & ->).
    now exists l, (Finite r).
  - exists (mkLine2D (xdata l ++ [x0]) (ydata l ++ [y0]) (color l)), x0.
    cbn [lines set_lines_field xdata].
    split; [apply nth_error_list_update_eq; apply nth_error_Some; congruence |].
    split; [now apply hd_error_snoc | apply last_error_snoc].
Qed.

Lemma close_line_preserves_closed (ax : Axes) (line j : lineref) (u : unit)
      (ax' : Axes) :
  RadarAxes._close_line line ax = OK (u, ax') ->
  angle_closed ax j -> angle_closed ax' j.
Proof.
  intros H Hj. destruct (Nat.eq_dec j line) as [-> | Hne].
  - now apply (close_line_establishes ax line u ax').
  - destruct (close_line_frame ax line u ax' H) as (_ & _ & Hoth).
    destruct Hj as (l & x0 & Hl & Hx).
    exists l, x0. now rewrite Hoth.
Qed.

Lemma for_each_close_line_establishes (refs : list lineref) :
  forall ax u ax',
    for_each refs RadarAxes._close_line ax = OK (u, ax') ->
    (forall j, angle_closed ax j -> angle_closed ax' j) /\
    (forall j, In j refs -> angle_closed ax' j).
Proof.
  induction refs as [| r refs IH]; intros ax u ax' H.
  - cbn in H. injection H as _ <-. split; [auto | intros j []].
  - cbn [for_each] in H. apply bind_inv in H as (u1 & ax1 & Hc & Hrest).
    destruct (IH ax1 u ax' Hrest) as (Hkeep & Hnew).
    split.
    + intros j Hj. apply Hkeep.
      now apply (close_line_preserves_closed ax r j u1 ax1).
    + intros j [<- | Hin]; [| now apply Hnew].
      apply Hkeep. now apply (close_line_establishes ax r u1 ax1).
Qed.

(** X15.  What [plot] establishes: when it returns, every line that the
    parent's [plot] returned holds at least one point and has
    [x[0] == x[-1]], unless its first angle is NaN, in which case its last
    angle is NaN too; and every line whose first and last angles were the
    same value before the closing started still has them so. *)
Theorem plot_closes_every_line {Args : Type}
        (super_plot : Args -> M Axes (list lineref)) (args : Args) (ax : Axes)
        (r : pyret) (ax' : Axes) :
  RadarAxes.plot super_plot args ax = OK (r, ax') ->
  exists refs ax1,
    super_plot args ax = OK (refs, ax1) /\
    (forall j, In j refs ->
       exists l x0 xlast,
         nth_error (lines ax') j = Some l /\
         hd_error (xdata l) = Some x0 /\
         last_error (xdata l) = Some xlast /\
         (float_ne x0 xlast = false \/ (x0 = NaN /\ xlast = NaN))) /\
    (forall j, angle_closed ax1 j -> angle_closed ax' j).
Proof.
  unfold RadarAxes.plot. intros H.
  apply bind_inv in H as (refs & ax1 & Hsuper & H).
  apply bind_inv in H as (u & ax2 & Hfe & H).
  unfold ret in H. injection H as _ <-.
  exists refs, ax1. split; [exact Hsuper |].
  destruct (for_each_close_line_establishes refs ax1 u ax2 Hfe) as (Hk & Hn).
  split; [| assumption].
  intros j Hj. destruct (Hn j Hj) as (l & x0 & Hl & Hx0 & Hxl).
  exists l, x0, x0. repeat (split; [assumption |]).
  destruct x0 as [x |]; [left; apply float_ne_same | right; split; reflexivity].
Qed.

Lemma plot_closes_every_line_witness :
  exists ax' refs ax1,
    RadarAxes.plot PolarAxes.plot
      (floats [0; 1; 2]%R, floats [1; 2; 3]%R, "b") blank_axes
    = OK (PyNone, ax') /\
    PolarAxes.plot (floats [0; 1; 2]%R, floats [1; 2; 3]%R, "b") blank_axes
    = OK (refs, ax1) /\
    (forall j, In j refs ->
       exists l x0 xlast,
         nth_error (lines ax') j = Some l /\
         hd_error (xdata l) = Some x0 /\
         last_error (xdata l) = Some xlast /\
         (float_ne x0 xlast = false \/ (x0 = NaN /\ xlast = NaN))) /\
    (forall j, angle_closed ax1 j -> angle_closed ax' j).
Proof.
  assert (H : RadarAxes.plot PolarAxes.plot
                (floats [0; 1; 2]%R, floats [1; 2; 3]%R, "b") blank_axes
              = OK (PyNone,
                    set_lines_field
                      (lines blank_axes
                       ++ [mkLine2D (floats [0; 1; 2]%R ++ [Finite 0])
                                    (floats [1; 2; 3]%R ++ [Finite 1]) "b"])
                      blank_axes)).
  { apply (plot_closes_new_line (floats [0; 1; 2]%R) (floats [1; 2; 3]%R) "b"
             blank_axes (Finite 0) (Finite 2) (Finite 1));
      [reflexivity | reflexivity | reflexivity
      | apply float_ne_finite; lra | reflexivity]. }
  destruct (plot_closes_every_line _ _ _ _ _ H) as (refs & ax1 & K).
  eexists; exists refs, ax1. split; [exact H | exact K].
Defined.

(** ** The loop and the creation of the axes *)

Lemma stmt_loop_only_axes (w : World) (u : unit) (w' : World) :
  stmt_loop w = OK (u, w') -> only_axes w w'.
Proof.
  unfold stmt_loop. intros H.
  apply bind_inv in H as (d & w1 & H1 & H).
  apply load_inv in H1 as [-> _].
  unfold bind at 1 in H. cbn [get] in H.
  apply (for_each_preserves only_axes) in H;
    [assumption | apply only_axes_refl | apply only_axes_trans |].
  intros [i entry] s v s' Hb. now apply plot_case_only_axes in Hb.
Qed.

(** X16.  Whatever the table, the angles and the axes are, the plotting
    loop changes nothing but axes objects when it returns: the list bound
    to [data], the label row, the angles, the colours, the registry and the
    figure text are as before. *)
Theorem plotting_loop_only_touches_axes (w : World) (u : unit) (w' : World) :
  stmt_loop w = OK (u, w') ->
  only_axes w w' /\
  data w' = data w /\
  spoke_labels w' = spoke_labels w /\
  theta w' = theta w /\
  colors w' = colors w /\
  projection_registry w' = projection_registry w /\
  fig_text w' = fig_text w.
Proof.
  intros H. apply stmt_loop_only_axes in H.
  split; [exact H |]. unfold only_axes in H. rewrite <- H.
  now destruct w'.
Qed.

Lemma plotting_loop_only_touches_axes_witness :
  exists w',
    stmt_loop world_after_colors = OK (tt, w') /\
    only_axes world_after_colors w' /\
    data w' = data world_after_colors /\
    spoke_labels w' = spoke_labels world_after_colors /\
    theta w' = theta world_after_colors /\
    colors w' = colors world_after_colors /\
    projection_registry w' = projection_registry world_after_colors /\
    fig_text w' = fig_text world_after_colors.
Proof.
  destruct stmt_loop_run as (w' & H & _).
  exists w'. split; [exact H |].
  exact (plotting_loop_only_touches_axes _ _ _ H).
Defined.

(** X17.  Where an unknown frame fails: [radar_factory] accepts it, and
    the creation of the axes ([plt.subplots] with the ['radar'] projection)
    raises the invalid-value error, for any grid with at least one axes. *)
Theorem unknown_frame_fails_in_subplots
        (N : Z) (frame : string) (w w1 : World) (th : list R)
        (nrows ncols : nat) :
  frame <> "circle" ->
  frame <> "polygon" ->
  0 < nrows * ncols ->
  with_registry (radar_factory N frame) w = OK (th, w1) ->
  subplots nrows ncols "radar" w1 = Raise (unknown_frame frame).
Proof.
  intros Hc Hp Hn H.
  unfold with_registry in H.
  destruct (radar_factory N frame (projection_registry w))
    as [[th' reg'] |] eqn:Hrf; [| discriminate].
  injection H as -> <-.
  pose proof (radar_factory_inv _ _ _ _ _ Hrf) as Hlin.
  rewrite (radar_factory_OK N frame _ th Hlin) in Hrf.
  injection Hrf as <-.
  unfold subplots, bind, get, lift, modify. cbn.
  destruct (nrows * ncols) as [| n]; [lia |].
  cbn [seq for_each]. unfold bind.
  assert (Hinit : RadarAxes.__init__ N frame blank_axes
                  = Raise (unknown_frame frame)).
  { unfold RadarAxes.__init__, PolarAxes.__init__, bind, lift.
    now rewrite gen_axes_spines_unknown. }
  now rewrite Hinit.
Qed.

Lemma unknown_frame_fails_in_subplots_witness :
  exists th w1,
    with_registry (radar_factory 9 "triangle") initial_world = OK (th, w1) /\
    subplots 2 2 "radar" w1 = Raise (unknown_frame "triangle").
Proof.
  exists script_theta.
  exists (set_registry
            [("radar", mkAxesClass "radar" 9 "triangle" script_theta)]
            initial_world).
  split; [reflexivity |].
  apply (unknown_frame_fails_in_subplots 9 "triangle" initial_world _
           script_theta 2 2);
    [discriminate | discriminate | cbn; lia | reflexivity].
Defined.
